(** * Ten million checkboxes: the checkbox grid client

    A shallow embedding of [checkbox-list.tsx] (the [CheckboxList] component
    and its [useWebSocket] hook) and the properties of its viewport
    geometry, its sparse store of checked indices and its wire protocol.

    Conventions.
    - A JavaScript string is a [string]; every separator the code looks for
      ([","], [":"], ["get,"]) is ASCII.
    - [listState.current], an object used as a map from property keys to
      [true], is a [gmap string bool] of its own properties; a property key
      is the string JavaScript converts the subscript to.
    - An index of the grid is a natural number ([N]); its property key and
      its rendering inside a template literal is its decimal numeral (the
      indices of the grid are far below 2^53, where numbers are exact).
    - The two libraries the component draws on are outside this file's
      source: of the virtualizer only the list of indices it hands back is
      modelled (its range extractor, and that it does not return for an
      infinite count); the debounce hook is modelled from the specification,
      with a logical clock.
    - React state ([connected], the debounced range, [changesCount]), the
      socket's [readyState], the frames put on the wire and the lines
      written by [console.log] are fields of one record that every handler
      takes and returns. *)

From Stdlib Require Import ZArith NArith QArith Qround Qminmax Lia.
From Stdlib Require Import String Ascii DecimalString DecimalN.
From stdpp Require Import gmap strings list.

Local Open Scope Z_scope.

(** ** Strings: [includes], [split] and the decimal numeral of an index *)

Module Str.

(** [s.startsWith(sub)], the test [includes] makes at every position. *)
Fixpoint startsWith (sub s : string) : bool :=
  match sub, s with
  | EmptyString, _ => true
  | String a sub', String b s' => Ascii.eqb a b && startsWith sub' s'
  | String _ _, EmptyString => false
  end.

(** [s.includes(sub)]: does [sub] occur somewhere in [s]? *)
Fixpoint includes (sub s : string) : bool :=
  startsWith sub s ||
  match s with
  | EmptyString => false
  | String _ s' => includes sub s'
  end.

(** [s.split(sep)] for a one-character separator: the pieces between the
    occurrences of [sep], in order; always at least one piece. *)
Fixpoint split (sep : ascii) (s : string) : list string :=
  match s with
  | EmptyString => [EmptyString]
  | String c s' =>
      if Ascii.eqb c sep then EmptyString :: split sep s'
      else match split sep s' with
           | piece :: rest => String c piece :: rest
           | [] => [String c EmptyString]
           end
  end.

(** The decimal numeral of a non-negative integer: what [String(n)], a
    template literal [`${n}`] and the property key of [obj[n]] are. *)
Definition toString (n : N) : string :=
  NilZero.string_of_uint (N.to_uint n).

(** No occurrence of the character [c] in [s]. *)
Fixpoint free_of (c : ascii) (s : string) : Prop :=
  match s with
  | EmptyString => True
  | String a s' => a <> c /\ free_of c s'
  end.

(** [sub] occurs in [s]: some text, then [sub], then some text. *)
Definition contains (sub s : string) : Prop :=
  exists pre post : string, s = (pre ++ sub ++ post)%string.

Definition is_digit (a : ascii) : bool :=
  let n := nat_of_ascii a in (48 <=? n)%nat && (n <=? 57)%nat.

Fixpoint all_digits (s : string) : bool :=
  match s with
  | EmptyString => true
  | String a s' => is_digit a && all_digits s'
  end.

End Str.

(** ** Viewport geometry *)

Module Geometry.

Definition checkboxSize : Z := 32.
Definition checkboxPadding : Z := 4.

(** [zeroToTenMilion.length]: the size N of the index domain. *)
Definition zeroToTenMilion_length : Z := 10000000.

(** [windowSize.width ?? 1360]; the width is [null] before the first
    layout effect has run. *)
Definition width (windowSize_width : option Z) : Z :=
  default 1360 windowSize_width.

(** [Math.floor(width / (checkboxSize + checkboxPadding))]: a division of
    numbers, then the floor. *)
Definition columnLength (windowSize_width : option Z) : Z :=
  Qfloor (inject_Z (width windowSize_width)
          / inject_Z (checkboxSize + checkboxPadding)).

(** A JavaScript number as it occurs as the [count] option of a
    virtualizer: a quotient of two integers, or [Infinity] when the divisor
    is zero. (Ten million divided by a column count is held exactly enough
    by a double that no comparison with an integer changes.) *)
Inductive number :=
  | Finite (q : Q)
  | Infinity.

(** [zeroToTenMilion.length / columnLength], the row virtualizer's [count]. *)
Definition rowCount (windowSize_width : option Z) : number :=
  let c := columnLength windowSize_width in
  if c =? 0 then Infinity
  else Finite (inject_Z zeroToTenMilion_length / inject_Z c).

(** The argument of the virtualizer's range extractor. *)
Record Range := {
  startIndex : Z;
  endIndex : Z;
  overscan : Z;
  count : number
}.

(** [count - 1]. *)
Definition minus_one (n : number) : number :=
  match n with
  | Finite q => Finite (q - 1)
  | Infinity => Infinity
  end.

(** [Math.min(a, b)] for an integer [a]; the result is finite. *)
Definition Math_min (a : Z) (b : number) : Q :=
  match b with
  | Finite q => Qmin (inject_Z a) q
  | Infinity => inject_Z a
  end.

(** [for (let i = start; i <= end; i++) arr.push(i)] with an integer
    [start] and a number [end_]. *)
Definition upTo (start : Z) (end_ : Q) : list Z :=
  seqZ start (Qfloor end_ - start + 1).

(** The virtualizer's default range extractor:
    [start = Math.max(startIndex - overscan, 0)],
    [end = Math.min(endIndex + overscan, count - 1)], then the loop. *)
Definition defaultRangeExtractor (range : Range) : list Z :=
  let start := Z.max (startIndex range - overscan range) 0 in
  let end_ := Math_min (endIndex range + overscan range)
                       (minus_one (count range)) in
  upTo start end_.

(** The indices of [getVirtualItems()], when it returns. The virtualizer
    first measures every item below [count], which does not end when [count]
    is [Infinity]: there is no result then ([None]). Otherwise the list is
    empty while the virtualizer has no range yet (the scroll element is not
    measured), and is what the range extractor lists for the range
    [(startIndex, endIndex)] that the scroll position gives. *)
Definition getVirtualIndexes
    (range : option (Z * Z)) (overscan : Z) (count : number)
    : option (list Z) :=
  match count with
  | Infinity => None
  | Finite _ =>
      Some match range with
           | None => []
           | Some (startIndex, endIndex) =>
               defaultRangeExtractor
                 {| startIndex := startIndex; endIndex := endIndex;
                    overscan := overscan; count := count |}
           end
  end.

(** [rowVirtualizer.getVirtualItems()], as row indices:
    [count: zeroToTenMilion.length / columnLength], [overscan: 10]. *)
Definition rowsVirtual (w : option Z) (range : option (Z * Z))
    : option (list Z) :=
  getVirtualIndexes range 10 (rowCount w).

(** [columnVirtualizer.getVirtualItems()], as column indices:
    [count: columnLength], [overscan: 10]. *)
Definition columnsVirtual (w : option Z) (range : option (Z * Z))
    : option (list Z) :=
  getVirtualIndexes range 10 (Finite (inject_Z (columnLength w))).

(** [virtualRow.index * columnLength + virtualColumn.index]. *)
Definition actualIndex (w : option Z) (rowIndex columnIndex : Z) : Z :=
  rowIndex * columnLength w + columnIndex.

(** The cells drawn, when the render comes to drawing: [rowsVirtual.map]
    over [columnsVirtual.map], one [actualIndex] per pair of a virtual row
    and a virtual column. *)
Definition visibleIndices
    (w : option Z) (rowRange columnRange : option (Z * Z))
    : option (list Z) :=
  rows ← rowsVirtual w rowRange;
  columns ← columnsVirtual w columnRange;
  Some (r ← rows; c ← columns; [actualIndex w r c]).

End Geometry.

(** ** The sparse store, the socket and the message handlers *)

Module Client.
Import Str.

Local Open Scope string_scope.

(** [WebSocket.readyState]. *)
Inductive ReadyState := CONNECTING | OPEN | CLOSING | CLOSED.

#[global] Instance ReadyState_eq_dec : EqDecision ReadyState.
Proof. solve_decision. Defined.

(** Everything the component and its socket hook hold.
    [listState] is [listState.current]; [sent] lists the frames handed to
    the socket, oldest first; [console] the arrays written by
    [console.log]; [deps] the dependency values
    [[webSocket.connected, rangeStart, rangeEnd]] the query effect last ran
    with ([None] before the first render). *)
Record State := mkState {
  readyState : ReadyState;
  connected : bool;
  rangeStart : N;
  rangeEnd : N;
  listState : gmap string bool;
  changesCount : N;
  sent : list string;
  console : list (list string);
  deps : option (bool * N * N)
}.

Definition set_listState (ls : gmap string bool) (st : State) : State :=
  mkState (readyState st) (connected st) (rangeStart st) (rangeEnd st)
          ls (changesCount st) (sent st) (console st) (deps st).

(** [setChangesCount((prev) => prev + 1)]. *)
Definition setChangesCount_incr (st : State) : State :=
  mkState (readyState st) (connected st) (rangeStart st) (rangeEnd st)
          (listState st) (changesCount st + 1) (sent st) (console st) (deps st).

Definition push_sent (data : string) (st : State) : State :=
  mkState (readyState st) (connected st) (rangeStart st) (rangeEnd st)
          (listState st) (changesCount st) (sent st ++ [data]) (console st)
          (deps st).

(** [console.log(data)]. *)
Definition console_log (data : list string) (st : State) : State :=
  mkState (readyState st) (connected st) (rangeStart st) (rangeEnd st)
          (listState st) (changesCount st) (sent st) (console st ++ [data])
          (deps st).

Definition set_deps (d : option (bool * N * N)) (st : State) : State :=
  mkState (readyState st) (connected st) (rangeStart st) (rangeEnd st)
          (listState st) (changesCount st) (sent st) (console st) d.

Definition set_range (rs re : N) (st : State) : State :=
  mkState (readyState st) (connected st) rs re
          (listState st) (changesCount st) (sent st) (console st) (deps st).

Definition set_socket (r : ReadyState) (c : bool) (st : State) : State :=
  mkState r c (rangeStart st) (rangeEnd st)
          (listState st) (changesCount st) (sent st) (console st) (deps st).

(** The state at the first render: [useState(false)],
    [useDebounceValue(0, 1000)], [useDebounceValue(1000, 1000)],
    [useRef({})], [useState(0)], a socket that is still connecting. *)
Definition initial : State :=
  mkState CONNECTING false 0 1000 ∅ 0 [] [] None.

(** *** The store: the three things the code does to [listState.current] *)

(** [listState.current[k] = true] on the object made by [{}]. Every key
    becomes an own property of the object but one: [__proto__] is the accessor
    the object inherits, and its setter ignores a value that is no object, so
    that assignment leaves the object as it is. *)
Definition markChecked (k : string) (ls : gmap string bool) : gmap string bool :=
  if String.eqb k "__proto__" then ls else <[k := true]> ls.

(** [delete listState.current[k]]. *)
Definition markUnchecked (k : string) (ls : gmap string bool) : gmap string bool :=
  delete k ls.

(** [listState.current[actualIndex] ?? false]. *)
Definition isChecked (ls : gmap string bool) (actualIndex : N) : bool :=
  default false (ls !! toString actualIndex).

(** *** The socket hook *)

(** [send] of [useWebSocket]. *)
Definition send (data : string) (st : State) : State :=
  if negb (connected st) || negb (bool_decide (readyState st = OPEN))
  then st
  else push_sent data st.

(** The template literal [`get,${rangeStart},${rangeEnd}`]. *)
Definition queryFrame (rangeStart rangeEnd : N) : string :=
  "get," ++ toString rangeStart ++ "," ++ toString rangeEnd.

(** The effect with dependencies [[webSocket.connected, rangeStart, rangeEnd]]. *)
Definition queryEffect (st : State) : State :=
  if negb (connected st) then st
  else send (queryFrame (rangeStart st) (rangeEnd st)) st.

(** A render followed by its effects: the query effect runs when one of its
    dependencies differs from the value it last ran with. *)
Definition render (st : State) : State :=
  let d := Some (connected st, rangeStart st, rangeEnd st) in
  if decide (deps st = d) then st else queryEffect (set_deps d st).

(** [onChange] of a checkbox: [checked] is [e.currentTarget.checked]. *)
Definition onChange (checked : bool) (actualIndex : N) (st : State) : State :=
  let k := toString actualIndex in
  let st1 :=
    if checked then set_listState (markChecked k (listState st)) st
    else set_listState (markUnchecked k (listState st)) st in
  let st2 := setChangesCount_incr st1 in
  send ((if checked then "c" else "u") ++ "," ++ toString actualIndex) st2.

(** The property key of a subscript that is a string or [undefined]. *)
Definition propertyKey (index : option string) : string :=
  default "undefined" index.

(** The branch of the message handler for every frame that does not contain
    ["get,"]: [const [type, index] = event.data.split(",")]. *)
Definition mutationBranch (data : string) (st : State) : State :=
  let parts := split "," data in
  let type := parts !! 0%nat in
  let index := parts !! 1%nat in
  let ls0 := listState st in
  let ls1 := if decide (type = Some "c") then markChecked (propertyKey index) ls0
             else ls0 in
  let ls2 := if decide (type = Some "u") then markUnchecked (propertyKey index) ls1
             else ls1 in
  setChangesCount_incr (set_listState ls2 st).

Section Handlers.

(** [Number(index)] used as a subscript: the string is converted to a
    number and the number to its property key. Both conversions are
    ECMAScript's; the handlers are parametric in their composition. *)
Variable NumberKey : string -> string.

(** The body of [data.forEach]: [const [index, checked] = tuples.split(":")];
    [!index || !checked] holds of [undefined] and of the empty string. *)
Definition mergeTuple (ls : gmap string bool) (tuples : string) : gmap string bool :=
  let parts := split ":" tuples in
  match parts !! 0%nat, parts !! 1%nat with
  | Some index, Some checked =>
      if String.eqb index "" || String.eqb checked "" then ls
      else if String.eqb checked "1" then markChecked (NumberKey index) ls
      else markUnchecked (NumberKey index) ls
  | _, _ => ls
  end.

(** The branch for a frame that contains ["get,"]:
    [split(",")], [shift()], [console.log], [forEach]. *)
Definition getBranch (data : string) (st : State) : State :=
  let data' := tail (split "," data) in
  let st1 := console_log data' st in
  let ls := foldl mergeTuple (listState st1) data' in
  setChangesCount_incr (set_listState ls st1).

(** The callback registered with [webSocket.onMessage]. *)
Definition onMessage (data : string) (st : State) : State :=
  if includes "get," data then getBranch data st
  else mutationBranch data st.

(** What can happen to the client. [Settle rs re] is a render in which the
    two debounced values are [rs] and [re]; the two are separate states, and
    a render in which only one of them is new is a [Settle] that repeats the
    other. *)
Inductive Event :=
  | Open
  | Close
  | Change (checked : bool) (actualIndex : N)
  | Message (data : string)
  | Settle (rs re : N).

(** One event, then the render it causes. The message callback is
    registered only once [connected] holds. *)
Definition step (st : State) (ev : Event) : State :=
  match ev with
  | Open => render (set_socket OPEN true st)
  | Close => render (set_socket CLOSED (connected st) st)
  | Change checked actualIndex => render (onChange checked actualIndex st)
  | Message data =>
      if connected st then render (onMessage data st) else st
  | Settle rs re => render (set_range rs re st)
  end.

Definition run (st : State) (evs : list Event) : State :=
  foldl step st evs.

(** No [Open] among the events: the socket is still connecting. *)
Definition stillConnecting (evs : list Event) : Prop :=
  Forall (fun ev => ev <> Open) evs.

End Handlers.

(** One interpretation of [NumberKey], for running the handlers on concrete
    frames: on a string of decimal digits it is the numeral of its value
    (leading zeros dropped), as [Number] followed by the key conversion is
    for every value below 2^53; the other strings are given the key
    ["NaN"]. *)
Definition decimalKey (s : string) : string :=
  if all_digits s && negb (String.eqb s "") then
    match NilEmpty.uint_of_string s with
    | Some d => toString (N.of_uint d)
    | None => "NaN"
    end
  else "NaN".

(** *** Vocabulary of the statements *)

(** The two mutations of the store's contract, on an index. *)
Inductive StoreOp :=
  | Check (i : N)
  | Uncheck (i : N).

Definition applyOp (ls : gmap string bool) (op : StoreOp) : gmap string bool :=
  match op with
  | Check i => markChecked (toString i) ls
  | Uncheck i => markUnchecked (toString i) ls
  end.

Definition applyOps (ls : gmap string bool) (ops : list StoreOp) : gmap string bool :=
  foldl applyOp ls ops.

(** The last operation of [ops] that targets [i]: [Some true] for a check,
    [Some false] for an uncheck, [None] when no operation targets [i]. *)
Fixpoint lastOp (i : N) (ops : list StoreOp) : option bool :=
  match ops with
  | [] => None
  | op :: ops' =>
      match lastOp i ops' with
      | Some b => Some b
      | None =>
          match op with
          | Check j => if N.eqb i j then Some true else None
          | Uncheck j => if N.eqb i j then Some false else None
          end
      end
  end.

(** No entry of the store holds [false]. *)
Definition sparse (ls : gmap string bool) : Prop :=
  forall k, ls !! k <> Some false.

Section Responses.

Variable NumberKey : string -> string.

(** What one tuple of a response lists: the key it names and whether its
    bit is ["1"]; nothing when a part is missing or empty (and nothing when
    the key is [__proto__] and the bit ["1"], the one write the object
    ignores; no number has that key). *)
Definition listing (tuples : string) : option (string * bool) :=
  match split ":" tuples with
  | index :: checked :: _ =>
      if String.eqb index "" || String.eqb checked "" then None
      else if String.eqb (NumberKey index) "__proto__" && String.eqb checked "1"
           then None
           else Some (NumberKey index, String.eqb checked "1")
  | _ => None
  end.

(** The last listing of the key [k] among the tuples [data]. *)
Fixpoint lastListing (k : string) (data : list string) : option bool :=
  match data with
  | [] => None
  | tuples :: data' =>
      match lastListing k data' with
      | Some b => Some b
      | None =>
          match listing tuples with
          | Some (k', b) => if String.eqb k' k then Some b else None
          | None => None
          end
      end
  end.

(** The tuples of a response frame: the pieces after the first comma. *)
Definition tuplesOf (data : string) : list string :=
  tail (split "," data).

(** [entries]: is index [i] reported checked by the response [data]? *)
Definition reportedChecked (data : string) (i : N) : bool :=
  existsb (fun tuples =>
             match listing tuples with
             | Some (k, true) => String.eqb k (toString i)
             | _ => false
             end) (tuplesOf data).

End Responses.

End Client.

(** ** The range asked for, the frames of the wire *)

Module Wire.
Import Str Geometry Client.

Local Open Scope string_scope.

(** The [range] that [onChange] of the row virtualizer hands to the two
    debounced setters, from [rowVirtualizer.range]:
    [start: (range?.startIndex ?? 0) * columnLength],
    [end: (range?.endIndex ?? 0) * columnLength + columnLength]. *)
Definition queryRange (w : option Z) (range : option (Z * Z)) : Z * Z :=
  let startIndex := match range with Some (s, _) => s | None => 0%Z end in
  let endIndex := match range with Some (_, e) => e | None => 0%Z end in
  ((startIndex * columnLength w)%Z,
   (endIndex * columnLength w + columnLength w)%Z).

(** The template literal [`${checked ? "c" : "u"},${actualIndex}`] that
    [onChange] of a checkbox sends. *)
Definition toggleFrame (checked : bool) (actualIndex : N) : string :=
  (if checked then "c" else "u") ++ "," ++ toString actualIndex.

(** A tuple [<index>:<bit>] as the comment on the response branch gives it:
    the bit is 1 for checked and 0 for unchecked. *)
Definition encodeTuple (entry : N * bool) : string :=
  toString entry.1 ++ ":" ++ (if entry.2 then "1" else "0").

(** The response frame that lists the given entries, in order:
    [get,<index>:<bit>,<index>:<bit>,...]. *)
Definition encodeResponse (entries : list (N * bool)) : string :=
  "get," ++ String.concat "," (map encodeTuple entries).

(** The store operation an entry stands for. *)
Definition entryOp (entry : N * bool) : StoreOp :=
  if entry.2 then Check entry.1 else Uncheck entry.1.

(** A frame the client can put on the wire: a range query or the command
    of a toggle. *)
Definition isCommand (frame : string) : Prop :=
  (exists rs re, frame = queryFrame rs re)
  \/ (exists checked i, frame = toggleFrame checked i).

(** The socket takes frames: [connected] holds and [readyState] is [OPEN]. *)
Definition isOpen (st : State) : bool :=
  connected st && bool_decide (readyState st = OPEN).

(** The two writes on an entry, chosen by a flag: set it when [checked],
    delete it otherwise. *)
Definition mark (checked : bool) (k : string) (ls : gmap string bool) : gmap string bool :=
  if checked then markChecked k ls else markUnchecked k ls.

(** The query effect has run with the values the client now has, or has
    not run at all and the client is not connected. *)
Definition depsCurrent (st : State) : Prop :=
  (deps st = None /\ connected st = false)
  \/ deps st = Some (connected st, rangeStart st, rangeEnd st).

End Wire.

(** ** The two debounced bounds *)

Module Debounce.
Import Client Wire.

(** The quiet interval both hooks are given, in milliseconds:
    [useDebounceValue(0, 1000)], [useDebounceValue(1000, 1000)]. *)
Definition delay : N := 1000.

(** Modelled from the spec: the debounce hook is a dependency and is not in
    the source. A debouncer holds at most one pending candidate, with one
    timer: [None] when nothing is pending, [Some (value, deadline)]
    otherwise. A new candidate replaces the pending one and restarts the
    timer, so that the deadline is one quiet interval after its arrival
    (4.2: superseded candidates are dropped, never queued; 5: the timer is
    restarted, not queued). *)
Definition restart (now value : N) : option (N * N) :=
  Some (value, (now + delay)%N).

(** Modelled from the spec: what a timer emits at the time [now]: the
    pending candidate, once no new candidate has arrived for the quiet
    interval (4.2), that is once its deadline is reached. *)
Definition expired (now : N) (timer : option (N * N)) : option N :=
  match timer with
  | Some (value, deadline) => if (deadline <=? now)%N then Some value else None
  | None => None
  end.

(** The client with the timers of its two debounce hooks, one for
    [rangeStart] and one for [rangeEnd]. *)
Record Scroller := mkScroller {
  client : State;
  startTimer : option (N * N);
  endTimer : option (N * N)
}.


Section Timers.

Variable NumberKey : string -> string.

(** Modelled from the spec: the timer of the start bound runs out. The hook
    sets its debounced value, a state of its own, and the component renders
    with the new start and the end it has. *)
Definition fireStart (now : N) (sc : Scroller) : Scroller :=
  match expired now (startTimer sc) with
  | Some value =>
      mkScroller
        (step NumberKey (client sc) (Settle value (rangeEnd (client sc))))
        None (endTimer sc)
  | None => sc
  end.

(** Modelled from the spec: the timer of the end bound runs out, likewise. *)
Definition fireEnd (now : N) (sc : Scroller) : Scroller :=
  match expired now (endTimer sc) with
  | Some value =>
      mkScroller
        (step NumberKey (client sc) (Settle (rangeStart (client sc)) value))
        (startTimer sc) None
  | None => sc
  end.

(** Time has come to [now]: the timers that have run out fire, the one of
    the start bound first (it was set first). *)
Definition advance (now : N) (sc : Scroller) : Scroller :=
  fireEnd now (fireStart now sc).

(** [onChange] of the row virtualizer at the time [now], with the range it
    computes: [updateRangeStart(range.start); updateRangeEnd(range.end)]. *)
Definition onRangeChange (now : N) (range : N * N) (sc : Scroller) : Scroller :=
  let sc' := advance now sc in
  mkScroller (client sc') (restart now range.1) (restart now range.2).

(** A sequence of candidates, each with the time it arrives at. *)
Definition scroll (sc : Scroller) (burst : list (N * (N * N))) : Scroller :=
  foldl (fun sc candidate => onRangeChange candidate.1 candidate.2 sc) sc burst.

End Timers.

End Debounce.

(** * Properties *)

(** ** Strings *)

Module StrFacts.
Import Str.

Local Open Scope string_scope.

Lemma startsWith_spec (sub s : string) :
  startsWith sub s = true <-> exists post, s = sub ++ post.
Proof.
  revert s. induction sub as [|a sub IH]; intros s; simpl.
  - split; [intros _; by exists s | done].
  - destruct s as [|b s].
    + split; [done | intros [post H]; discriminate H].
    + rewrite andb_true_iff, IH, Ascii.eqb_eq. split.
      * intros [-> [post ->]]. by exists post.
      * intros [post H]. injection H as -> ->. split; [done | by exists post].
Qed.

Lemma includes_spec (sub s : string) :
  includes sub s = true <-> contains sub s.
Proof.
  unfold contains. induction s as [|c s IH]; simpl.
  - rewrite orb_false_r, startsWith_spec. split.
    + intros [post H]. by exists "", post.
    + intros [pre [post H]]. destruct pre as [|p pre]; [by exists post|].
      discriminate H.
  - rewrite orb_true_iff, IH, startsWith_spec. split.
    + intros [[post H] | [pre [post H]]].
      * by exists "", post.
      * exists (String c pre), post. simpl. by rewrite H.
    + intros [pre [post H]]. destruct pre as [|p pre]; simpl in H.
      * left. by exists post.
      * right. injection H as _ H. by exists pre, post.
Qed.

(** A string in which the first character of [sub] does not occur does not
    include [sub]. *)
Lemma includes_free_of (a : ascii) (sub s : string) :
  free_of a s -> includes (String a sub) s = false.
Proof.
  induction s as [|c s IH]; simpl; [done|].
  intros [Hc Hs]. rewrite (IH Hs), orb_false_r.
  apply andb_false_iff. left. apply Ascii.eqb_neq. congruence.
Qed.

Lemma free_of_app (c : ascii) (s t : string) :
  free_of c (s ++ t) <-> free_of c s /\ free_of c t.
Proof. induction s as [|a s IH]; simpl; [tauto | rewrite IH; tauto]. Qed.

Lemma split_free_of (sep : ascii) (s : string) :
  free_of sep s -> split sep s = [s].
Proof.
  induction s as [|c s IH]; simpl; [done|].
  intros [Hc Hs]. rewrite (IH Hs).
  by destruct (Ascii.eqb_spec c sep).
Qed.

Lemma split_app (sep : ascii) (s t : string) :
  free_of sep s -> split sep (s ++ String sep t) = s :: split sep t.
Proof.
  induction s as [|c s IH]; simpl.
  - intros _. by rewrite Ascii.eqb_refl.
  - intros [Hc Hs]. rewrite (IH Hs).
    by destruct (Ascii.eqb_spec c sep).
Qed.

Lemma split_nonempty (sep : ascii) (s : string) : split sep s <> [].
Proof.
  destruct s as [|c s]; simpl; [done|].
  destruct (Ascii.eqb c sep); [done|]. by destruct (split sep s).
Qed.

Lemma all_digits_free_of (c : ascii) (s : string) :
  is_digit c = false -> all_digits s = true -> free_of c s.
Proof.
  intros Hc. induction s as [|a s IH]; simpl; [done|].
  rewrite andb_true_iff. intros [Ha Hs]. split; [|by apply IH].
  intros ->. congruence.
Qed.

Lemma all_digits_uint (d : Decimal.uint) :
  all_digits (NilEmpty.string_of_uint d) = true.
Proof. induction d; simpl; auto. Qed.

Lemma toString_digits (n : N) : all_digits (toString n) = true.
Proof.
  unfold toString, NilZero.string_of_uint.
  destruct (N.to_uint n); try done; apply (all_digits_uint (_ _)).
Qed.

Lemma toString_nonempty (n : N) : toString n <> "".
Proof.
  unfold toString, NilZero.string_of_uint.
  destruct (N.to_uint n); simpl; discriminate.
Qed.

Lemma to_uint_nonnil (n : N) : N.to_uint n <> Decimal.Nil.
Proof.
  destruct n as [|p]; simpl; [discriminate|].
  apply DecimalPos.Unsigned.to_uint_nonnil.
Qed.

Lemma toString_inj (n m : N) : toString n = toString m -> n = m.
Proof.
  unfold toString. intros H.
  apply Unsigned.to_uint_inj.
  assert (Some (N.to_uint n) = Some (N.to_uint m)) as [= E]; [|done].
  rewrite <- (NilZero.usu (N.to_uint n)) by apply to_uint_nonnil.
  rewrite <- (NilZero.usu (N.to_uint m)) by apply to_uint_nonnil.
  by rewrite H.
Qed.

Lemma toString_free_of (c : ascii) (n : N) :
  is_digit c = false -> free_of c (toString n).
Proof. intros Hc. apply all_digits_free_of; [done | apply toString_digits]. Qed.

(** A key that is not made of digits is the key of no index. *)
Lemma toString_neq (k : string) (n : N) :
  all_digits k = false -> k <> toString n.
Proof. intros Hk ->. by rewrite toString_digits in Hk. Qed.

End StrFacts.

(** ** Viewport geometry *)

Module GeometryFacts.
Import Geometry.

Lemma Zle_Qfloor (i : Z) (q : Q) : i <= Qfloor q <-> (inject_Z i <= q)%Q.
Proof.
  split; intros H.
  - apply Qle_trans with (inject_Z (Qfloor q)); [|apply Qfloor_le].
    by rewrite <- Zle_Qle.
  - rewrite <- (Qfloor_Z i). by apply Qfloor_resp_le.
Qed.

(** The loop of the range extractor pushes exactly the integers from
    [start] that are at most [end_]. *)
Lemma elem_of_upTo (start i : Z) (end_ : Q) :
  i ∈ upTo start end_ <-> start <= i /\ (inject_Z i <= end_)%Q.
Proof.
  unfold upTo. rewrite elem_of_seqZ, <- Zle_Qfloor. lia.
Qed.

Lemma elem_of_defaultRangeExtractor (range : Range) (i : Z) :
  i ∈ defaultRangeExtractor range <->
  0 <= i /\ startIndex range - overscan range <= i
  /\ i <= endIndex range + overscan range
  /\ match count range with
     | Finite q => (inject_Z i <= q - 1)%Q
     | Infinity => True
     end.
Proof.
  unfold defaultRangeExtractor. rewrite elem_of_upTo.
  destruct (count range) as [q|]; simpl.
  - rewrite Q.min_glb_iff, <- Zle_Qle. intuition lia.
  - rewrite <- Zle_Qle. intuition lia.
Qed.

Lemma columnLength_div (w : option Z) :
  columnLength w = width w / (checkboxSize + checkboxPadding).
Proof. unfold columnLength. by rewrite Zdiv_Qdiv. Qed.

Lemma elem_of_getVirtualIndexes
    (range : option (Z * Z)) (overscan i : Z) (count : number) (l : list Z) :
  getVirtualIndexes range overscan count = Some l -> i ∈ l ->
  0 <= i /\ exists q, count = Finite q /\ (inject_Z i <= q - 1)%Q.
Proof.
  unfold getVirtualIndexes. destruct count as [q|]; [|done].
  intros [= <-] Hi. destruct range as [[s e]|]; [|by apply elem_of_nil in Hi].
  apply elem_of_defaultRangeExtractor in Hi as (H0 & _ & _ & Hq).
  split; [done|]. by exists q.
Qed.

(** A virtual column is one of [0 .. columnLength - 1]. *)
Lemma columnsVirtual_bound
    (w : option Z) (range : option (Z * Z)) (l : list Z) (c : Z) :
  columnsVirtual w range = Some l -> c ∈ l -> 0 <= c < columnLength w.
Proof.
  intros Hl Hc.
  destruct (elem_of_getVirtualIndexes _ _ _ _ _ Hl Hc) as (H0 & q & [= <-] & Hq).
  split; [done|].
  assert (inject_Z (c + 1) <= inject_Z (columnLength w))%Q as Hle.
  { rewrite inject_Z_plus. apply Qplus_le_l with (z := (- (1))%Q).
    ring_simplify. ring_simplify in Hq. exact Hq. }
  rewrite <- Zle_Qle in Hle. lia.
Qed.

(** The rows come back only when there is a column; a virtual row is then
    a whole row of the index domain: the row after it starts at or before
    [zeroToTenMilion.length]. *)
Lemma rowsVirtual_bound
    (w : option Z) (range : option (Z * Z)) (l : list Z) (r : Z) :
  0 < columnLength w ->
  rowsVirtual w range = Some l -> r ∈ l ->
  0 <= r /\ (r + 1) * columnLength w <= zeroToTenMilion_length.
Proof.
  intros Hc Hl Hr.
  destruct (elem_of_getVirtualIndexes _ _ _ _ _ Hl Hr) as (H0 & q & Eq & Hq).
  unfold rowCount in Eq.
  destruct (Z.eqb_spec (columnLength w) 0) as [E|_]; [lia|].
  injection Eq as <-. split; [done|].
  assert (r + 1 <= zeroToTenMilion_length / columnLength w) as Hle.
  { rewrite Zdiv_Qdiv. apply Zle_Qfloor. rewrite inject_Z_plus.
    apply Qplus_le_l with (z := (- (1))%Q). ring_simplify.
    ring_simplify in Hq. exact Hq. }
  pose proof (Z.mul_div_le zeroToTenMilion_length (columnLength w) Hc).
  nia.
Qed.

Lemma elem_of_visibleIndices
    (w : option Z) (rowRange columnRange : option (Z * Z))
    (l : list Z) (i : Z) :
  visibleIndices w rowRange columnRange = Some l ->
  i ∈ l <->
  exists rows columns r c,
    rowsVirtual w rowRange = Some rows
    /\ columnsVirtual w columnRange = Some columns
    /\ r ∈ rows /\ c ∈ columns /\ i = actualIndex w r c.
Proof.
  unfold visibleIndices.
  destruct (rowsVirtual w rowRange) as [rows|]; [|done].
  destruct (columnsVirtual w columnRange) as [columns|]; [|done].
  simpl. intros [= <-]. rewrite list_elem_of_bind. split.
  - intros (r & Hi & Hr). apply list_elem_of_bind in Hi as (c & Hi & Hc).
    apply list_elem_of_singleton in Hi. by exists rows, columns, r, c.
  - intros (rows' & columns' & r & c & [= <-] & [= <-] & Hr & Hc & ->).
    exists r. split; [|done].
    apply list_elem_of_bind. exists c. split; [|done].
    by apply list_elem_of_singleton.
Qed.

(** With at least one column both virtualizers return, and the render
    comes to drawing. *)
Lemma visibleIndices_returns
    (w : option Z) (rowRange columnRange : option (Z * Z)) :
  columnLength w <> 0 -> is_Some (visibleIndices w rowRange columnRange).
Proof.
  intros Hc. unfold visibleIndices, rowsVirtual, columnsVirtual, rowCount.
  destruct (Z.eqb_spec (columnLength w) 0) as [E|_]; [done|]. by eexists.
Qed.

(** C1. Geometry correctness: for every available width above zero the
    column count is the floor of the width divided by the cell extent
    (cell size plus padding), and every linear index
    [rowIndex * columnLength + columnIndex] of a drawn (row, column) pair,
    overscan rows and columns included, lies in [0, 10000000). From a width
    of one cell extent on the render does come to drawing. *)
Theorem geometry_correct (w : Z) :
  0 < w ->
  columnLength (Some w) = w / (checkboxSize + checkboxPadding)
  /\ (checkboxSize + checkboxPadding) * columnLength (Some w) <= w
     < (checkboxSize + checkboxPadding) * (columnLength (Some w) + 1)
  /\ (forall rowRange columnRange drawn i,
        visibleIndices (Some w) rowRange columnRange = Some drawn ->
        i ∈ drawn ->
        0 <= i < zeroToTenMilion_length)
  /\ (checkboxSize + checkboxPadding <= w ->
      forall rowRange columnRange,
        is_Some (visibleIndices (Some w) rowRange columnRange)).
Proof.
  intros Hw. pose proof (columnLength_div (Some w)) as Hdiv. simpl in Hdiv.
  assert ((checkboxSize + checkboxPadding) * columnLength (Some w) <= w
          < (checkboxSize + checkboxPadding) * (columnLength (Some w) + 1))
    as Hfloor.
  { rewrite Hdiv. change (checkboxSize + checkboxPadding) with 36.
    pose proof (Z.mul_div_le w 36 eq_refl).
    pose proof (Z.mul_succ_div_gt w 36 eq_refl). lia. }
  split; [done|]. split; [done|]. split.
  - intros rowRange columnRange drawn i Hd Hi.
    apply (elem_of_visibleIndices _ _ _ _ _ Hd) in Hi
      as (rows & columns & r & c & Hrows & Hcols & Hr & Hc & ->).
    apply (columnsVirtual_bound _ _ _ _ Hcols) in Hc.
    assert (0 < columnLength (Some w)) as Hpos by lia.
    apply (rowsVirtual_bound _ _ _ _ Hpos Hrows) in Hr.
    unfold actualIndex. nia.
  - intros Hcell rowRange columnRange. apply visibleIndices_returns.
    change (checkboxSize + checkboxPadding) with 36 in *. lia.
Qed.

Lemma geometry_correct_witness :
  columnLength (Some 1360) = 1360 / (checkboxSize + checkboxPadding)
  /\ (checkboxSize + checkboxPadding) * columnLength (Some 1360) <= 1360
     < (checkboxSize + checkboxPadding) * (columnLength (Some 1360) + 1)
  /\ (forall rowRange columnRange drawn i,
        visibleIndices (Some 1360) rowRange columnRange = Some drawn ->
        i ∈ drawn ->
        0 <= i < zeroToTenMilion_length)
  /\ (checkboxSize + checkboxPadding <= 1360 ->
      forall rowRange columnRange,
        is_Some (visibleIndices (Some 1360) rowRange columnRange)).
Proof. apply (geometry_correct 1360). lia. Defined.

(** With the fallback width there are 37 columns; scrolled to the bottom,
    the last row drawn is row 270269, whose last cell is 9999989. *)
Example fallback_columns : columnLength None = 37.
Proof. reflexivity. Qed.

Example fallback_last_row :
  rowsVirtual None (Some (270260, 270270)) ≫= last = Some 270269
  /\ visibleIndices None (Some (270260, 270270)) (Some (30, 36)) ≫= last
     = Some 9999989.
Proof. by vm_compute. Qed.

End GeometryFacts.

(** ** The socket: sending and the first query *)

Module SocketFacts.
Import Str StrFacts Client.

Local Open Scope string_scope.

(** The socket is open for the client when [connected] holds and the
    socket's [readyState] is [OPEN]. *)
Lemma send_open (data : string) (st : State) :
  connected st = true -> readyState st = OPEN ->
  send data st = push_sent data st.
Proof.
  intros Hc Hr. unfold send. by rewrite Hc, Hr.
Qed.

Lemma send_not_open (data : string) (st : State) :
  connected st = false \/ readyState st <> OPEN -> send data st = st.
Proof.
  intros [Hc | Hr]; unfold send.
  - by rewrite Hc.
  - destruct (bool_decide_reflect (readyState st = OPEN)); [done|].
    by rewrite orb_true_r.
Qed.

Lemma send_listState (data : string) (st : State) :
  listState (send data st) = listState st.
Proof. unfold send. by destruct (_ || _). Qed.

Lemma send_connected (data : string) (st : State) :
  connected (send data st) = connected st.
Proof. unfold send. by destruct (_ || _). Qed.

Lemma send_range (data : string) (st : State) :
  rangeStart (send data st) = rangeStart st
  /\ rangeEnd (send data st) = rangeEnd st.
Proof. unfold send. by destruct (_ || _). Qed.

Lemma render_listState (st : State) : listState (render st) = listState st.
Proof.
  unfold render, queryEffect. case_decide; [done|].
  destruct (negb _); [done|]. by rewrite send_listState.
Qed.

Lemma render_connected (st : State) : connected (render st) = connected st.
Proof.
  unfold render, queryEffect. case_decide; [done|].
  destruct (negb _) eqn:E; [done|]. by rewrite send_connected.
Qed.

Lemma render_range (st : State) :
  rangeStart (render st) = rangeStart st /\ rangeEnd (render st) = rangeEnd st.
Proof.
  unfold render, queryEffect. case_decide; [done|].
  destruct (negb _) eqn:E; [done|].
  split; [rewrite (proj1 (send_range _ _)) | rewrite (proj2 (send_range _ _))];
    done.
Qed.

(** While [connected] is false a render sends nothing. *)
Lemma render_disconnected (st : State) :
  connected st = false -> sent (render st) = sent st.
Proof.
  intros Hc. unfold render, queryEffect. case_decide; [done|].
  simpl. by rewrite Hc.
Qed.

Section Runs.

Variable NumberKey : string -> string.

Lemma onMessage_sent (data : string) (st : State) :
  sent (onMessage NumberKey data st) = sent st.
Proof. unfold onMessage. by destruct (includes _ _). Qed.

Lemma onMessage_connected (data : string) (st : State) :
  connected (onMessage NumberKey data st) = connected st.
Proof. unfold onMessage. by destruct (includes _ _). Qed.

Lemma onChange_connected (b : bool) (i : N) (st : State) :
  connected (onChange b i st) = connected st.
Proof. unfold onChange. rewrite send_connected. by destruct b. Qed.

(** While [connected] is false the query effect has never run with a
    true first dependency. *)
Lemma render_deps_disconnected (st : State) :
  connected st = false ->
  forall rs re, deps (render st) <> Some (true, rs, re).
Proof.
  intros Hc rs re. unfold render, queryEffect. case_decide as Hd.
  - rewrite Hd, Hc. congruence.
  - simpl. rewrite Hc. simpl. congruence.
Qed.

Lemma step_connecting (st : State) (ev : Event) :
  ev <> Open -> connected st = false -> sent st = [] ->
  (forall rs re, deps st <> Some (true, rs, re)) ->
  connected (step NumberKey st ev) = false
  /\ sent (step NumberKey st ev) = []
  /\ forall rs re, deps (step NumberKey st ev) <> Some (true, rs, re).
Proof.
  intros Hev Hc Hs Hd. destruct ev as [| |b i|data|rs re]; simpl; [done|..].
  - rewrite render_connected, render_disconnected by done.
    split; [done|]. split; [done|]. by apply render_deps_disconnected.
  - assert (connected (onChange b i st) = false) as Hc'
      by by rewrite onChange_connected.
    rewrite render_connected, render_disconnected by done.
    split; [done|]. split; [|by apply render_deps_disconnected].
    unfold onChange. rewrite send_not_open.
    + by destruct b.
    + left. by destruct b.
  - by rewrite Hc.
  - rewrite render_connected, render_disconnected by done.
    split; [done|]. split; [done|]. by apply render_deps_disconnected.
Qed.

Lemma run_connecting (evs : list Event) (st : State) :
  stillConnecting evs -> connected st = false -> sent st = [] ->
  (forall rs re, deps st <> Some (true, rs, re)) ->
  connected (run NumberKey st evs) = false
  /\ sent (run NumberKey st evs) = []
  /\ forall rs re, deps (run NumberKey st evs) <> Some (true, rs, re).
Proof.
  unfold run. intros Hevs. revert st.
  induction Hevs as [|ev evs Hev _ IH]; intros st Hc Hs Hd; [done|].
  simpl. destruct (step_connecting st ev Hev Hc Hs Hd) as (Hc' & Hs' & Hd').
  by apply IH.
Qed.

(** The [open] event of a client that is not yet [connected]: exactly one
    frame is sent, the query for the debounced range of that render. *)
Lemma open_sends_query (st : State) :
  (forall rs re, deps st <> Some (true, rs, re)) ->
  sent (step NumberKey st Open)
  = (sent st ++ [queryFrame (rangeStart st) (rangeEnd st)])%list.
Proof.
  intros Hd. simpl. unfold render. case_decide as Hd'; [|done].
  simpl in Hd'. by apply Hd in Hd'.
Qed.

End Runs.

(** C8. Disconnected send is a no-op: whatever the command, [send] on a
    connection that is not open ([connected] false, or the socket's
    [readyState] not [OPEN]) puts no frame on the wire and raises nothing;
    it returns the client exactly as it was, so nothing is queued, and
    every later run of the client, one in which the connection opens
    included, is the run it would have been without the call. *)
Theorem send_while_disconnected
    (NumberKey : string -> string) (command : string) (st : State) :
  connected st = false \/ readyState st <> OPEN ->
  sent (send command st) = sent st
  /\ send command st = st
  /\ forall evs, sent (run NumberKey (send command st) evs)
                 = sent (run NumberKey st evs).
Proof.
  intros H. rewrite (send_not_open command st H). done.
Qed.

Lemma send_while_disconnected_witness :
  sent (send "c,1" initial) = sent initial
  /\ send "c,1" initial = initial
  /\ forall evs, sent (run decimalKey (send "c,1" initial) evs)
                 = sent (run decimalKey initial evs).
Proof. apply (send_while_disconnected decimalKey "c,1" initial). by left. Defined.

(** The command of a toggle made before the socket opens is not sent when
    it opens: the only frame on the wire is the first query. *)
Example toggle_before_open_is_lost :
  sent (run decimalKey initial [Change true 1; Open]) = ["get,0,1000"].
Proof. by vm_compute. Qed.

(** C4. When the connection goes from connecting to open the client issues
    exactly one range query, and it is the first frame it ever sends:
    [get,<start>,<end>] for the settled (debounced) range of that moment.
    Whatever happened while connecting (toggles, settled ranges), nothing
    was sent before. *)
Theorem first_query_on_open
    (NumberKey : string -> string) (evs : list Event) :
  stillConnecting evs ->
  let st := run NumberKey initial evs in
  sent st = []
  /\ sent (step NumberKey st Open)
     = [queryFrame (rangeStart st) (rangeEnd st)]
  /\ queryFrame (rangeStart st) (rangeEnd st)
     = "get," ++ toString (rangeStart st) ++ "," ++ toString (rangeEnd st).
Proof.
  intros Hevs st.
  destruct (run_connecting NumberKey evs initial Hevs eq_refl eq_refl)
    as (Hc & Hs & Hd); [done|].
  fold st in Hc, Hs, Hd. split; [done|].
  by rewrite (open_sends_query NumberKey st Hd), Hs.
Qed.

Lemma first_query_on_open_witness :
  let st := run decimalKey initial [Settle 370 1110] in
  sent st = []
  /\ sent (step decimalKey st Open)
     = [queryFrame (rangeStart st) (rangeEnd st)]
  /\ queryFrame (rangeStart st) (rangeEnd st)
     = "get," ++ toString (rangeStart st) ++ "," ++ toString (rangeEnd st).
Proof.
  apply (first_query_on_open decimalKey [Settle 370 1110]).
  repeat constructor; discriminate.
Defined.

(** The scenario of a fresh client: the socket opens and [get,0,1000] is
    sent. *)
Example first_query_initial :
  sent (run decimalKey initial [Open]) = ["get,0,1000"].
Proof. by vm_compute. Qed.

End SocketFacts.

(** ** The store and the message handler *)

Module StoreFacts.
Import Str StrFacts Client SocketFacts.

Local Open Scope string_scope.

Lemma toString_not_proto (i : N) : toString i <> "__proto__".
Proof. intros H. symmetry in H. by apply toString_neq in H. Qed.

Lemma markChecked_insert (k : string) (ls : gmap string bool) :
  k <> "__proto__" -> markChecked k ls = <[k := true]> ls.
Proof.
  intros H. unfold markChecked. by destruct (String.eqb_spec k "__proto__").
Qed.

Lemma markChecked_proto (ls : gmap string bool) :
  markChecked "__proto__" ls = ls.
Proof. done. Qed.

Lemma markChecked_cases (k : string) (ls : gmap string bool) :
  (k = "__proto__" /\ markChecked k ls = ls)
  \/ (k <> "__proto__" /\ markChecked k ls = <[k := true]> ls).
Proof.
  unfold markChecked. destruct (String.eqb_spec k "__proto__"); [by left|by right].
Qed.

Lemma isChecked_markChecked (ls : gmap string bool) (i j : N) :
  isChecked (markChecked (toString i) ls) j
  = if N.eqb j i then true else isChecked ls j.
Proof.
  rewrite markChecked_insert by apply toString_not_proto.
  unfold isChecked. destruct (N.eqb_spec j i) as [->|Hne].
  - by rewrite lookup_insert_eq.
  - rewrite lookup_insert_ne; [done|]. intros H. by apply toString_inj in H.
Qed.

Lemma isChecked_markUnchecked (ls : gmap string bool) (i j : N) :
  isChecked (markUnchecked (toString i) ls) j
  = if N.eqb j i then false else isChecked ls j.
Proof.
  unfold isChecked, markUnchecked. destruct (N.eqb_spec j i) as [->|Hne].
  - by rewrite lookup_delete_eq.
  - rewrite lookup_delete_ne; [done|]. intros H. by apply toString_inj in H.
Qed.

(** A key that names no index is read by no [isChecked]. *)
Lemma isChecked_other_key (ls : gmap string bool) (k : string) (j : N) :
  k <> toString j ->
  isChecked (markChecked k ls) j = isChecked ls j
  /\ isChecked (markUnchecked k ls) j = isChecked ls j.
Proof.
  intros Hk. unfold isChecked, markUnchecked.
  rewrite lookup_delete_ne by done. split; [|done].
  destruct (markChecked_cases k ls) as [[_ ->]|[_ ->]]; [done|].
  by rewrite lookup_insert_ne.
Qed.

Lemma sparse_markChecked (k : string) (ls : gmap string bool) :
  sparse ls -> sparse (markChecked k ls).
Proof.
  intros H k'. destruct (markChecked_cases k ls) as [[_ ->]|[_ ->]]; [done|].
  destruct (decide (k = k')) as [->|Hne].
  - by rewrite lookup_insert_eq.
  - rewrite lookup_insert_ne; [apply H | done].
Qed.

Lemma sparse_markUnchecked (k : string) (ls : gmap string bool) :
  sparse ls -> sparse (markUnchecked k ls).
Proof.
  intros H k'. unfold markUnchecked. destruct (decide (k = k')) as [->|Hne].
  - by rewrite lookup_delete_eq.
  - rewrite lookup_delete_ne; [apply H | done].
Qed.

(** *** Sequences of store operations *)

Lemma lookup_applyOps (ls : gmap string bool) (ops : list StoreOp) (i : N) :
  applyOps ls ops !! toString i
  = match lastOp i ops with
    | Some true => Some true
    | Some false => None
    | None => ls !! toString i
    end.
Proof.
  unfold applyOps. revert ls.
  induction ops as [|op ops IH]; intros ls; simpl; [done|].
  rewrite IH. destruct (lastOp i ops) as [[|]|]; [done..|].
  destruct op as [j|j]; simpl;
    rewrite ?markChecked_insert by apply toString_not_proto;
    unfold markUnchecked; destruct (N.eqb_spec i j) as [->|Hne].
  - by rewrite lookup_insert_eq.
  - rewrite lookup_insert_ne; [done|]. intros H. by apply toString_inj in H.
  - by rewrite lookup_delete_eq.
  - rewrite lookup_delete_ne; [done|]. intros H. by apply toString_inj in H.
Qed.

Lemma sparse_applyOps (ls : gmap string bool) (ops : list StoreOp) :
  sparse ls -> sparse (applyOps ls ops).
Proof.
  unfold applyOps. revert ls.
  induction ops as [|op ops IH]; intros ls H; simpl; [done|].
  apply IH. destruct op; [by apply sparse_markChecked|].
  by apply sparse_markUnchecked.
Qed.

(** [decimalKey] is exact on the numeral of every index. *)
Lemma decimalKey_toString (n : N) : decimalKey (toString n) = toString n.
Proof.
  unfold decimalKey. rewrite toString_digits.
  destruct (String.eqb_spec (toString n) "") as [E|_];
    [by apply toString_nonempty in E|].
  simpl. unfold toString at 1, NilZero.string_of_uint.
  pose proof (to_uint_nonnil n) as Hn.
  destruct (N.to_uint n) eqn:E; [done|..];
    rewrite NilEmpty.usu, <- E, Unsigned.of_to; done.
Qed.

Section Handler.

Variable NumberKey : string -> string.

(** *** The response branch, tuple by tuple *)

Lemma mergeTuple_listing (ls : gmap string bool) (tuples : string) :
  mergeTuple NumberKey ls tuples
  = match listing NumberKey tuples with
    | Some (k, true) => markChecked k ls
    | Some (k, false) => markUnchecked k ls
    | None => ls
    end.
Proof.
  unfold mergeTuple, listing.
  destruct (split ":" tuples) as [|index [|checked rest]]; simpl; [done..|].
  destruct (String.eqb index "" || String.eqb checked ""); [done|].
  destruct (String.eqb_spec (NumberKey index) "__proto__") as [E|_];
    destruct (String.eqb checked "1"); simpl; try done.
  rewrite E. apply markChecked_proto.
Qed.

(** A key listed with bit 1 is a key the object takes. *)
Lemma listing_checked_key (tuples k : string) :
  listing NumberKey tuples = Some (k, true) -> k <> "__proto__".
Proof.
  unfold listing.
  destruct (split ":" tuples) as [|index [|checked rest]]; [done..|].
  destruct (String.eqb index "" || String.eqb checked ""); [done|].
  destruct (String.eqb_spec (NumberKey index) "__proto__") as [E|Hne];
    destruct (String.eqb checked "1"); simpl; try done.
  by intros [= <-].
Qed.

Lemma lookup_mergeTuples (ls : gmap string bool) (data : list string) (k : string) :
  foldl (mergeTuple NumberKey) ls data !! k
  = match lastListing NumberKey k data with
    | Some true => Some true
    | Some false => None
    | None => ls !! k
    end.
Proof.
  revert ls. induction data as [|tuples data IH]; intros ls; simpl; [done|].
  rewrite IH. destruct (lastListing NumberKey k data) as [[|]|]; [done..|].
  rewrite mergeTuple_listing.
  destruct (listing NumberKey tuples) as [[k' b]|] eqn:El; [|done].
  destruct b.
  - rewrite markChecked_insert by by apply (listing_checked_key tuples).
    destruct (String.eqb_spec k' k) as [->|Hne];
      [by rewrite lookup_insert_eq | by rewrite lookup_insert_ne].
  - unfold markUnchecked. destruct (String.eqb_spec k' k) as [->|Hne];
      [by rewrite lookup_delete_eq | by rewrite lookup_delete_ne].
Qed.

Lemma sparse_mergeTuples (ls : gmap string bool) (data : list string) :
  sparse ls -> sparse (foldl (mergeTuple NumberKey) ls data).
Proof.
  revert ls. induction data as [|tuples data IH]; intros ls H; simpl; [done|].
  apply IH. rewrite mergeTuple_listing.
  destruct (listing NumberKey tuples) as [[k' [|]]|]; [| |done].
  - by apply sparse_markChecked.
  - by apply sparse_markUnchecked.
Qed.

Lemma listState_getBranch (data : string) (st : State) :
  listState (getBranch NumberKey data st)
  = foldl (mergeTuple NumberKey) (listState st) (tuplesOf data).
Proof. done. Qed.

Lemma mergeTuples_idempotent (ls : gmap string bool) (data : list string) :
  foldl (mergeTuple NumberKey) (foldl (mergeTuple NumberKey) ls data) data
  = foldl (mergeTuple NumberKey) ls data.
Proof.
  apply map_eq. intros k. rewrite !lookup_mergeTuples.
  by destruct (lastListing NumberKey k data) as [[|]|].
Qed.

(** *** The mutation branch *)

Lemma listState_mutationBranch (data : string) (st : State) :
  listState (mutationBranch data st)
  = let parts := split "," data in
    let k := propertyKey (parts !! 1%nat) in
    if decide (parts !! 0%nat = Some "c") then markChecked k (listState st)
    else if decide (parts !! 0%nat = Some "u") then markUnchecked k (listState st)
    else listState st.
Proof.
  unfold mutationBranch. simpl.
  destruct (decide (split "," data !! 0%nat = Some "c")) as [E|E]; [|done].
  rewrite E. by rewrite decide_False.
Qed.

Lemma mutationBranch_idempotent (data : string) (st : State) :
  listState (mutationBranch data (mutationBranch data st))
  = listState (mutationBranch data st).
Proof.
  rewrite !listState_mutationBranch. simpl.
  repeat case_decide; try done.
  - destruct (markChecked_cases (propertyKey (split "," data !! 1%nat))
                (listState st)) as [[E ->]|[E ->]].
    + by rewrite E.
    + rewrite markChecked_insert by done. by rewrite insert_insert_eq.
  - unfold markUnchecked. apply map_eq. intros k'. destruct (decide (propertyKey (split "," data !! 1%nat) = k')) as [->|Hne].
    + by rewrite !lookup_delete_eq.
    + by rewrite !lookup_delete_ne.
Qed.

(** The broadcast frame of an index: no ["get,"] in it, and its two parts
    are the type and the numeral. *)
Lemma broadcast_frame (type : string) (i : N) :
  free_of "g" type -> free_of "," type ->
  includes "get," (type ++ "," ++ toString i) = false
  /\ split "," (type ++ "," ++ toString i) = [type; toString i].
Proof.
  intros Hg Hc. split.
  - apply includes_free_of. apply free_of_app. split; [done|].
    split; [done|]. by apply toString_free_of.
  - change (type ++ "," ++ toString i)
      with (type ++ String "," (toString i)).
    rewrite split_app by done.
    by rewrite split_free_of by by apply toString_free_of.
Qed.

Lemma onMessage_broadcast_c (i : N) (st : State) :
  listState (onMessage NumberKey ("c," ++ toString i) st)
  = markChecked (toString i) (listState st).
Proof.
  destruct (broadcast_frame "c" i) as [Hi Hs]; [by simpl..|].
  change ("c," ++ toString i) with ("c" ++ "," ++ toString i).
  unfold onMessage. rewrite Hi, listState_mutationBranch.
  cbv zeta. by rewrite Hs.
Qed.

Lemma onMessage_broadcast_u (i : N) (st : State) :
  listState (onMessage NumberKey ("u," ++ toString i) st)
  = markUnchecked (toString i) (listState st).
Proof.
  destruct (broadcast_frame "u" i) as [Hi Hs]; [by simpl..|].
  change ("u," ++ toString i) with ("u" ++ "," ++ toString i).
  unfold onMessage. rewrite Hi, listState_mutationBranch.
  cbv zeta. by rewrite Hs.
Qed.

(** A tuple with its two parts. *)
Lemma mergeTuple_pair (ls : gmap string bool) (index bit : string) :
  index <> "" -> bit <> "" -> free_of ":" index -> free_of ":" bit ->
  mergeTuple NumberKey ls (index ++ String ":" bit)
  = if String.eqb bit "1" then markChecked (NumberKey index) ls
    else markUnchecked (NumberKey index) ls.
Proof.
  intros Hi Hb Hci Hcb. unfold mergeTuple.
  rewrite split_app by done. rewrite split_free_of by done. simpl.
  destruct (String.eqb_spec index "") as [E|_]; [done|].
  by destruct (String.eqb_spec bit "") as [E|_].
Qed.

(** A response with the one tuple [<i>:<bit>]. *)
Lemma onMessage_response_one (i : N) (bit : string) (st : State) :
  bit <> "" -> free_of "," bit -> free_of ":" bit ->
  listState (onMessage NumberKey ("get," ++ toString i ++ ":" ++ bit) st)
  = if String.eqb bit "1" then markChecked (NumberKey (toString i)) (listState st)
    else markUnchecked (NumberKey (toString i)) (listState st).
Proof.
  intros Hb Hc Hcol. unfold onMessage.
  assert (includes "get," ("get," ++ toString i ++ ":" ++ bit) = true) as ->.
  { apply includes_spec. by exists "", (toString i ++ ":" ++ bit). }
  rewrite listState_getBranch. unfold tuplesOf.
  change ("get," ++ toString i ++ ":" ++ bit)
    with ("get" ++ String "," (toString i ++ ":" ++ bit)).
  rewrite split_app by by simpl.
  rewrite split_free_of.
  2:{ apply free_of_app. split; [by apply toString_free_of|]. by split. }
  simpl.
  change (toString i ++ ":" ++ bit) with (toString i ++ String ":" bit).
  apply mergeTuple_pair; try done;
    [apply toString_nonempty | by apply toString_free_of].
Qed.

(** *** Sparsity along every run *)

Lemma sparse_onMessage (data : string) (st : State) :
  sparse (listState st) -> sparse (listState (onMessage NumberKey data st)).
Proof.
  intros H. unfold onMessage. destruct (includes "get," data).
  - rewrite listState_getBranch. by apply sparse_mergeTuples.
  - rewrite listState_mutationBranch. simpl.
    repeat case_decide; [by apply sparse_markChecked| |done].
    by apply sparse_markUnchecked.
Qed.

Lemma listState_onChange (checked : bool) (i : N) (st : State) :
  listState (onChange checked i st)
  = if checked then markChecked (toString i) (listState st)
    else markUnchecked (toString i) (listState st).
Proof. unfold onChange. rewrite send_listState. by destruct checked. Qed.

Lemma sparse_step (st : State) (ev : Event) :
  sparse (listState st) -> sparse (listState (step NumberKey st ev)).
Proof.
  intros H. destruct ev as [| |b i|data|rs re]; simpl.
  - by rewrite render_listState.
  - by rewrite render_listState.
  - rewrite render_listState, listState_onChange.
    destruct b; [by apply sparse_markChecked | by apply sparse_markUnchecked].
  - destruct (connected st); [|done].
    rewrite render_listState. by apply sparse_onMessage.
  - by rewrite render_listState.
Qed.

Lemma sparse_run (st : State) (evs : list Event) :
  sparse (listState st) -> sparse (listState (run NumberKey st evs)).
Proof.
  unfold run. revert st. induction evs as [|ev evs IH]; intros st H; [done|].
  simpl. apply IH. by apply sparse_step.
Qed.

(** No run gives the store an entry of its own under [__proto__]. *)
Lemma no_inherited_key (evs : list Event) :
  listState (run NumberKey initial evs) !! "__proto__" = None.
Proof.
  assert (forall k ls, ls !! "__proto__" = None ->
            markChecked k ls !! "__proto__" = None
            /\ markUnchecked k ls !! "__proto__" = None) as Hm.
  { intros k ls H. split.
    - destruct (markChecked_cases k ls) as [[_ ->]|[Hk ->]]; [done|].
      by rewrite lookup_insert_ne.
    - unfold markUnchecked. destruct (decide (k = "__proto__")) as [->|Hk];
        [by rewrite lookup_delete_eq | by rewrite lookup_delete_ne]. }
  assert (forall st ev, listState st !! "__proto__" = None ->
            listState (step NumberKey st ev) !! "__proto__" = None) as Hs.
  { intros st ev H. destruct ev as [| |b i|data|rs re]; simpl;
      rewrite ?render_listState; try done.
    - rewrite listState_onChange. destruct b; by apply Hm.
    - destruct (connected st); [|done]. rewrite render_listState.
      unfold onMessage. destruct (includes "get," data).
      + rewrite listState_getBranch. revert H.
        generalize (listState st) as ls.
        induction (tuplesOf data) as [|t l IH]; intros ls H; [done|].
        simpl. apply IH. rewrite mergeTuple_listing.
        destruct (listing NumberKey t) as [[k [|]]|]; [| |done]; by apply Hm.
      + rewrite listState_mutationBranch. cbv zeta.
        repeat case_decide; try done; by apply Hm. }
  unfold run. generalize (eq_refl : listState initial !! "__proto__" = None).
  generalize initial as st. induction evs as [|ev evs IH]; intros st H; [done|].
  simpl. by apply IH, Hs.
Qed.

End Handler.

End StoreFacts.

(** ** The store's contract and the wire protocol *)

Module Protocol.
Import Str StrFacts Client SocketFacts StoreFacts.

Local Open Scope string_scope.

(** C5. Sparse invariant. After any finite sequence of check and uncheck
    operations the entry of an index is [true] when the last operation on
    it was a check, absent when it was an uncheck, and what it was before
    when there was none; so from the empty store [isChecked i] holds
    exactly when the last operation on [i] was a check. The store never
    holds [false]: unchecking deletes the entry on each of the three
    paths, the local toggle, the remote broadcast and the range merge (where
    the key is the one [Number] gives, the numeral itself for an index), and
    no run of the client leaves an entry [false]. *)
Theorem sparse_invariant (NumberKey : string -> string) :
  (forall ls ops i,
     applyOps ls ops !! toString i
     = match lastOp i ops with
       | Some true => Some true
       | Some false => None
       | None => ls !! toString i
       end)
  /\ (forall ops i,
        isChecked (applyOps ∅ ops) i = bool_decide (lastOp i ops = Some true))
  /\ (forall ops, sparse (applyOps ∅ ops))
  /\ (forall st i,
        listState (onChange true i st) = applyOp (listState st) (Check i)
        /\ listState (onChange false i st) = applyOp (listState st) (Uncheck i)
        /\ listState (onChange false i st) !! toString i = None)
  /\ (forall st i,
        listState (onMessage NumberKey ("c," ++ toString i) st)
        = applyOp (listState st) (Check i)
        /\ listState (onMessage NumberKey ("u," ++ toString i) st)
           = applyOp (listState st) (Uncheck i)
        /\ listState (onMessage NumberKey ("u," ++ toString i) st)
           !! toString i = None)
  /\ (forall st i,
        listState (onMessage NumberKey ("get," ++ toString i ++ ":1") st)
        = markChecked (NumberKey (toString i)) (listState st)
        /\ listState (onMessage NumberKey ("get," ++ toString i ++ ":0") st)
           = markUnchecked (NumberKey (toString i)) (listState st)
        /\ listState (onMessage NumberKey ("get," ++ toString i ++ ":0") st)
           !! NumberKey (toString i) = None)
  /\ (forall st i,
        NumberKey (toString i) = toString i ->
        listState (onMessage NumberKey ("get," ++ toString i ++ ":0") st)
        = applyOp (listState st) (Uncheck i)
        /\ isChecked
             (listState (onMessage NumberKey ("get," ++ toString i ++ ":0") st))
             i = false)
  /\ (forall evs, sparse (listState (run NumberKey initial evs))).
Proof.
  split; [apply lookup_applyOps|].
  split.
  { intros ops i. unfold isChecked. rewrite lookup_applyOps, lookup_empty.
    by destruct (lastOp i ops) as [[|]|]. }
  split.
  { intros ops. apply sparse_applyOps. intros k. by rewrite lookup_empty. }
  split.
  { intros st i. rewrite !listState_onChange. simpl.
    split; [done|]. split; [done|]. apply lookup_delete_eq. }
  split.
  { intros st i. rewrite onMessage_broadcast_c, onMessage_broadcast_u. simpl.
    split; [done|]. split; [done|]. apply lookup_delete_eq. }
  split.
  { intros st i.
    rewrite (onMessage_response_one NumberKey i "1") by (by simpl).
    rewrite (onMessage_response_one NumberKey i "0") by (by simpl).
    simpl. split; [done|]. split; [done|]. apply lookup_delete_eq. }
  split.
  { intros st i Hi.
    rewrite (onMessage_response_one NumberKey i "0") by (by simpl).
    simpl. rewrite Hi. split; [done|].
    by rewrite isChecked_markUnchecked, N.eqb_refl. }
  intros evs. apply sparse_run. intros k. simpl. by rewrite lookup_empty.
Qed.

Lemma sparse_invariant_witness :
  decimalKey (toString 5) = toString 5
  /\ isChecked
       (listState
          (onMessage decimalKey ("get," ++ toString 5 ++ ":0")
             (set_listState {["5" := true]} initial)))
       5 = false.
Proof.
  assert (decimalKey (toString 5) = toString 5) as H by reflexivity.
  split; [exact H|].
  destruct (sparse_invariant decimalKey) as (_ & _ & _ & _ & _ & _ & Hm & _).
  exact (proj2 (Hm (set_listState {["5" := true]} initial) 5%N H)).
Defined.

(** C6. Merge idempotence: whatever the store and the response, merging
    the same response twice in succession leaves the store exactly as
    merging it once does (the same holds of every frame the handler
    takes); and unchecking an index that has no entry changes nothing. *)
Theorem merge_idempotent
    (NumberKey : string -> string) (data : string) (st : State) :
  listState (getBranch NumberKey data (getBranch NumberKey data st))
  = listState (getBranch NumberKey data st)
  /\ listState (onMessage NumberKey data (onMessage NumberKey data st))
     = listState (onMessage NumberKey data st)
  /\ forall k, listState st !! k = None ->
               markUnchecked k (listState st) = listState st.
Proof.
  split; [|split].
  - rewrite !listState_getBranch. apply mergeTuples_idempotent.
  - unfold onMessage. destruct (includes "get," data).
    + rewrite !listState_getBranch. apply mergeTuples_idempotent.
    + apply mutationBranch_idempotent.
  - intros k Hk. unfold markUnchecked. by apply delete_id.
Qed.

Lemma merge_idempotent_witness :
  listState initial !! "5" = None
  /\ markUnchecked "5" (listState initial) = listState initial.
Proof.
  split; [done|].
  by apply (proj2 (proj2 (merge_idempotent decimalKey "get,5:0" initial))).
Defined.

(** Merging [get,5:1,10:1] twice, on the empty store. *)
Example merge_twice :
  let once := onMessage decimalKey "get,5:1,10:1" initial in
  let twice := onMessage decimalKey "get,5:1,10:1" once in
  listState twice = listState once
  /\ isChecked (listState twice) 5 = true
  /\ isChecked (listState twice) 10 = true
  /\ isChecked (listState twice) 7 = false.
Proof. by vm_compute. Qed.

(** C7. Toggle round-trip: checking index [i] locally and then handling
    the echoed broadcast [c,<i>] leaves [i] checked, and the store after
    the echo is the store after the local check. *)
Theorem toggle_round_trip
    (NumberKey : string -> string) (i : N) (st : State) :
  let st1 := onChange true i st in
  let st2 := onMessage NumberKey ("c," ++ toString i) st1 in
  isChecked (listState st1) i = true
  /\ isChecked (listState st2) i = true
  /\ listState st2 = listState st1.
Proof.
  intros st1 st2.
  assert (listState st1 = markChecked (toString i) (listState st)) as H1
    by apply (listState_onChange true).
  assert (listState st2 = listState st1) as H2.
  { unfold st2. rewrite onMessage_broadcast_c, H1.
    rewrite !markChecked_insert by apply toString_not_proto.
    by rewrite insert_insert_eq. }
  rewrite H2, H1, isChecked_markChecked, N.eqb_refl. done.
Qed.

Example toggle_round_trip_42 :
  isChecked (listState (run decimalKey initial
                          [Open; Change true 42; Message "c,42"])) 42 = true
  /\ sent (run decimalKey initial [Open; Change true 42; Message "c,42"])
     = ["get,0,1000"; "c,42"].
Proof. by vm_compute. Qed.

(** C10. Inbound frames are classified by containment, not by prefix: a
    frame takes the response branch exactly when ["get,"] occurs somewhere
    in it (only that branch writes to the console), and the mutation
    branch otherwise; so a frame that starts like a mutation and contains
    ["get,"] further on is merged as a response. *)
Theorem classified_by_containment
    (NumberKey : string -> string) (data : string) (st : State) :
  (contains "get," data ->
   onMessage NumberKey data st = getBranch NumberKey data st)
  /\ (~ contains "get," data ->
      onMessage NumberKey data st = mutationBranch data st)
  /\ (contains "get," data <->
      console (onMessage NumberKey data st) <> console st)
  /\ (forall payload, contains "get," payload ->
        onMessage NumberKey ("c," ++ payload) st
        = getBranch NumberKey ("c," ++ payload) st).
Proof.
  assert (forall d, contains "get," d ->
            onMessage NumberKey d st = getBranch NumberKey d st) as Hget.
  { intros d Hd. apply includes_spec in Hd. unfold onMessage. by rewrite Hd. }
  split; [apply Hget|]. split; [|split].
  - intros Hn. unfold onMessage.
    destruct (includes "get," data) eqn:E; [|done].
    by apply includes_spec in E.
  - unfold onMessage. destruct (includes "get," data) eqn:E.
    + apply includes_spec in E. split; [|done]. intros _. simpl.
      intros H. apply (f_equal length) in H. rewrite length_app in H.
      simpl in H. lia.
    + split; [|done]. intros H. apply includes_spec in H. congruence.
  - intros payload [pre [post ->]]. apply Hget.
    by exists ("c," ++ pre), post.
Qed.

Lemma classified_by_containment_witness :
  contains "get," "c,get,5:1"
  /\ onMessage decimalKey "c,get,5:1" initial
     = getBranch decimalKey "c,get,5:1" initial.
Proof.
  assert (contains "get," "c,get,5:1") as H by by exists "c,", "5:1".
  split; [exact H|].
  exact (proj1 (classified_by_containment decimalKey "c,get,5:1" initial) H).
Defined.

(** The frame [c,get,5:1] checks index 5 and stores nothing under ["get"];
    the frame [c,5] is a mutation. *)
Example mutation_like_frame_is_merged :
  isChecked (listState (onMessage decimalKey "c,get,5:1" initial)) 5 = true
  /\ listState (onMessage decimalKey "c,get,5:1" initial) !! "get" = None
  /\ console (onMessage decimalKey "c,get,5:1" initial) = [["get"; "5:1"]]
  /\ console (onMessage decimalKey "c,5" initial) = [].
Proof. by vm_compute. Qed.

(** C3, as stated, fails: the response [get,5:0] does not report index 5
    checked, and yet index 5, checked before the merge, is unchecked after
    it. *)
Lemma merge_unchecks_listed_index :
  let st := set_listState {["5" := true]} initial in
  contains "get," "get,5:0"
  /\ reportedChecked decimalKey "get,5:0" 5 = false
  /\ isChecked (listState st) 5 = true
  /\ isChecked (listState (onMessage decimalKey "get,5:0" st)) 5 = false.
Proof.
  split; [by exists "", "5:0"|]. by vm_compute.
Qed.

(** C3, amended. Merging a response touches only the keys its tuples list,
    whatever range was asked for: a key whose last listing has bit [1] is
    checked afterwards, a key whose last listing has any other bit has no
    entry afterwards, and a key that no tuple lists keeps the entry it
    had. Read through [isChecked], for every index. *)
Theorem merge_by_last_listing
    (NumberKey : string -> string) (data : string) (st : State) :
  contains "get," data ->
  (forall k,
     listState (onMessage NumberKey data st) !! k
     = match lastListing NumberKey k (tuplesOf data) with
       | Some true => Some true
       | Some false => None
       | None => listState st !! k
       end)
  /\ (forall i,
        isChecked (listState (onMessage NumberKey data st)) i
        = match lastListing NumberKey (toString i) (tuplesOf data) with
          | Some b => b
          | None => isChecked (listState st) i
          end).
Proof.
  intros Hd. apply includes_spec in Hd.
  assert (forall k,
     listState (onMessage NumberKey data st) !! k
     = match lastListing NumberKey k (tuplesOf data) with
       | Some true => Some true
       | Some false => None
       | None => listState st !! k
       end) as H.
  { intros k. unfold onMessage. rewrite Hd, listState_getBranch.
    apply lookup_mergeTuples. }
  split; [exact H|]. intros i. unfold isChecked. rewrite H.
  by destruct (lastListing _ _ _) as [[|]|].
Qed.

Lemma merge_by_last_listing_witness :
  contains "get," "get,7:1,500:1"
  /\ isChecked (listState (onMessage decimalKey "get,7:1,500:1" initial)) 7
     = match lastListing decimalKey (toString 7) (tuplesOf "get,7:1,500:1") with
       | Some b => b
       | None => isChecked (listState initial) 7
       end.
Proof.
  assert (contains "get," "get,7:1,500:1") as H by by exists "", "7:1,500:1".
  split; [exact H|].
  exact (proj2 (merge_by_last_listing decimalKey "get,7:1,500:1" initial H) 7%N).
Defined.

(** The reply [get,7:1,500:1] to the first query: 7 and 500 are checked,
    300 is not. *)
Example first_reply_merged :
  let st := run decimalKey initial [Open; Message "get,7:1,500:1"] in
  sent st = ["get,0,1000"]
  /\ isChecked (listState st) 7 = true
  /\ isChecked (listState st) 500 = true
  /\ isChecked (listState st) 300 = false.
Proof. by vm_compute. Qed.

(** C2, as stated, fails: the broadcast [c,abc], whose index is no number,
    is not discarded; it adds the entry ["abc"] to the store and asks for a
    re-render. *)
Lemma malformed_broadcast_is_stored :
  ~ contains "get," "c,abc"
  /\ listState initial !! "abc" = None
  /\ listState (onMessage decimalKey "c,abc" initial) !! "abc" = Some true
  /\ listState (onMessage decimalKey "c,abc" initial) <> listState initial
  /\ changesCount (onMessage decimalKey "c,abc" initial) = 1%N.
Proof.
  split.
  { intros H. apply includes_spec in H. by vm_compute in H. }
  split; [done|]. split; [by vm_compute|]. split; [|by vm_compute].
  intros H. apply (f_equal (fun ls : gmap string bool => ls !! "abc")) in H.
  by vm_compute in H.
Qed.

(** C2, amended. A mutation broadcast whose index part is missing, or is
    not the decimal numeral of an index, changes [isChecked i] for no index
    [i], sends nothing and writes nothing to the console. It is not
    discarded: it asks for a re-render, and when the index text is there the
    store is written under that text as the key: [u] deletes the entry, [c]
    sets it, but for the one text [__proto__], which the object ignores. *)
Theorem malformed_broadcast_keeps_indices
    (NumberKey : string -> string) (data : string) (st : State) :
  ~ contains "get," data ->
  (forall n, split "," data !! 1%nat <> Some (toString n)) ->
  (forall i, isChecked (listState (onMessage NumberKey data st)) i
             = isChecked (listState st) i)
  /\ sent (onMessage NumberKey data st) = sent st
  /\ console (onMessage NumberKey data st) = console st
  /\ changesCount (onMessage NumberKey data st) = (changesCount st + 1)%N
  /\ (forall x, split "," data !! 1%nat = Some x ->
        (split "," data !! 0%nat = Some "c" -> x <> "__proto__" ->
         listState (onMessage NumberKey data st) = <[x := true]> (listState st))
        /\ (split "," data !! 0%nat = Some "c" -> x = "__proto__" ->
            listState (onMessage NumberKey data st) = listState st)
        /\ (split "," data !! 0%nat = Some "u" ->
            listState (onMessage NumberKey data st) = delete x (listState st))).
Proof.
  intros Hget Hidx.
  assert (includes "get," data = false) as E.
  { destruct (includes "get," data) eqn:E; [|done].
    by apply includes_spec in E. }
  unfold onMessage. rewrite E.
  split; [|split; [done|split; [done|split; [done|]]]].
  2:{ intros x Hx. rewrite listState_mutationBranch. cbv zeta.
      rewrite Hx. simpl. split; [|split].
      - intros -> Hp. rewrite decide_True by done. by apply markChecked_insert.
      - intros -> ->. by rewrite decide_True.
      - intros ->. by rewrite decide_False, decide_True. }
  intros i. rewrite listState_mutationBranch. cbv zeta.
  assert (propertyKey (split "," data !! 1%nat) <> toString i) as Hk.
  { destruct (split "," data !! 1%nat) as [x|] eqn:Ex; simpl.
    - intros ->. by apply (Hidx i).
    - by apply toString_neq. }
  destruct (isChecked_other_key (listState st) _ i Hk) as [Hc Hu].
  by repeat case_decide.
Qed.

Lemma malformed_broadcast_keeps_indices_witness :
  ~ contains "get," "c,abc"
  /\ (forall n, split "," "c,abc" !! 1%nat <> Some (toString n))
  /\ forall i, isChecked (listState (onMessage decimalKey "c,abc" initial)) i
               = isChecked (listState initial) i.
Proof.
  assert (~ contains "get," "c,abc") as H1.
  { intros H. apply includes_spec in H. by vm_compute in H. }
  assert (forall n, split "," "c,abc" !! 1%nat <> Some (toString n)) as H2.
  { intros n [= H]. by apply (toString_neq "abc" n). }
  split; [exact H1|]. split; [exact H2|].
  exact (proj1 (malformed_broadcast_keeps_indices decimalKey "c,abc" initial
                  H1 H2)).
Defined.

(** The broadcast [c,__proto__] on the empty store leaves it empty, and
    asks for a re-render. *)
Example inherited_key_ignored :
  listState (onMessage decimalKey "c,__proto__" initial) = ∅
  /\ changesCount (onMessage decimalKey "c,__proto__" initial) = 1%N.
Proof. by vm_compute. Qed.

End Protocol.

(** ** The viewport: what is drawn and what is asked for *)

Module ViewportFacts.
Import Geometry GeometryFacts Wire.

(** Two cells of the grid with the same linear index are the same cell. *)
Lemma actualIndex_inj (w : option Z) (r1 c1 r2 c2 : Z) :
  0 <= c1 < columnLength w -> 0 <= c2 < columnLength w ->
  actualIndex w r1 c1 = actualIndex w r2 c2 -> r1 = r2 /\ c1 = c2.
Proof. unfold actualIndex. intros H1 H2 H. assert (r1 = r2) by nia. nia. Qed.

Lemma NoDup_getVirtualIndexes
    (range : option (Z * Z)) (overscan : Z) (count : number) (l : list Z) :
  getVirtualIndexes range overscan count = Some l -> NoDup l.
Proof.
  unfold getVirtualIndexes. destruct count as [q|]; [|done]. intros [= <-].
  destruct range as [[s e]|]; [|constructor].
  unfold defaultRangeExtractor, upTo. apply NoDup_seqZ.
Qed.

(** X1. No linear index is drawn twice: every checkbox on the screen stands for
    an index of its own. *)
Theorem visibleIndices_NoDup
    (w : option Z) (rowRange columnRange : option (Z * Z)) (drawn : list Z) :
  visibleIndices w rowRange columnRange = Some drawn -> NoDup drawn.
Proof.
  unfold visibleIndices.
  destruct (rowsVirtual w rowRange) as [rows|] eqn:Hrows; [|done].
  destruct (columnsVirtual w columnRange) as [columns|] eqn:Hcols; [|done].
  simpl. intros [= <-].
  assert (forall c, c ∈ columns -> 0 <= c < columnLength w) as Hb
    by (intros c; apply (columnsVirtual_bound _ _ _ _ Hcols)).
  apply NoDup_bind.
  - intros r1 r2 i _ _ H1 H2.
    apply list_elem_of_bind in H1 as (c1 & H1 & Hc1).
    apply list_elem_of_bind in H2 as (c2 & H2 & Hc2).
    apply list_elem_of_singleton in H1, H2.
    apply Hb in Hc1, Hc2.
    by apply (actualIndex_inj w r1 c1 r2 c2); [..|congruence].
  - intros r _. apply NoDup_bind.
    + intros c1 c2 i Hc1 Hc2 H1 H2.
      apply list_elem_of_singleton in H1, H2.
      apply Hb in Hc1, Hc2.
      by apply (actualIndex_inj w r c1 r c2); [..|congruence].
    + intros c _. apply NoDup_singleton.
    + apply (NoDup_getVirtualIndexes _ _ _ _ Hcols).
  - apply (NoDup_getVirtualIndexes _ _ _ _ Hrows).
Qed.

Lemma visibleIndices_NoDup_witness :
  visibleIndices None (Some (0, 1)) (Some (0, 1))
  = Some (r ← seqZ 0 12; c ← seqZ 0 12; [r * 37 + c])
  /\ NoDup (r ← seqZ 0 12; c ← seqZ 0 12; [r * 37 + c]).
Proof.
  assert (visibleIndices None (Some (0, 1)) (Some (0, 1))
          = Some (r ← seqZ 0 12; c ← seqZ 0 12; [r * 37 + c])) as H
    by reflexivity.
  split; [exact H|].
  exact (visibleIndices_NoDup None _ _ _ H).
Defined.

(** X2. The cells of an incomplete last row are never drawn: every drawn index
    is below the largest multiple of the column count that fits in the
    index domain. *)
Theorem partial_last_row_not_drawn
    (w : option Z) (rowRange columnRange : option (Z * Z))
    (drawn : list Z) (i : Z) :
  visibleIndices w rowRange columnRange = Some drawn ->
  i ∈ drawn ->
  0 < columnLength w
  /\ 0 <= i < columnLength w * (zeroToTenMilion_length / columnLength w).
Proof.
  intros Hd Hi.
  apply (elem_of_visibleIndices _ _ _ _ _ Hd) in Hi
    as (rows & columns & r & c & Hrows & Hcols & Hr & Hc & ->).
  apply (columnsVirtual_bound _ _ _ _ Hcols) in Hc.
  assert (0 < columnLength w) as Hpos by lia. split; [done|].
  apply (rowsVirtual_bound _ _ _ _ Hpos Hrows) in Hr as [Hr0 Hr].
  assert (r + 1 <= zeroToTenMilion_length / columnLength w).
  { apply Z.div_le_lower_bound; lia. }
  unfold actualIndex. nia.
Qed.

Lemma partial_last_row_not_drawn_witness :
  visibleIndices None (Some (0, 1)) (Some (0, 1))
  = Some (r ← seqZ 0 12; c ← seqZ 0 12; [r * 37 + c])
  /\ 0 ∈ (r ← seqZ 0 12; c ← seqZ 0 12; [r * 37 + c])
  /\ 0 <= 0 < columnLength None * (zeroToTenMilion_length / columnLength None).
Proof.
  assert (visibleIndices None (Some (0, 1)) (Some (0, 1))
          = Some (r ← seqZ 0 12; c ← seqZ 0 12; [r * 37 + c])) as H
    by reflexivity.
  assert (0 ∈ (r ← seqZ 0 12; c ← seqZ 0 12; [r * 37 + c])) as H0
    by (vm_compute; left).
  split; [exact H|]. split; [exact H0|].
  exact (proj2 (partial_last_row_not_drawn None _ _ _ 0 H H0)).
Defined.

(** With 37 columns the ten indices from 9999990 on are out of reach. *)
Example fallback_reach :
  columnLength None * (zeroToTenMilion_length / columnLength None) = 9999990.
Proof. reflexivity. Qed.

(** X3. A window narrower than one cell has no column, and its render does
    not come to drawing: a measured width of 0 is not replaced by the
    fallback, the row count is [Infinity], and the row virtualizer's items,
    asked for before anything is drawn, never come back. *)
Theorem narrow_window_never_draws
    (w : Z) (rowRange columnRange : option (Z * Z)) :
  0 <= w < checkboxSize + checkboxPadding ->
  columnLength (Some w) = 0
  /\ rowCount (Some w) = Infinity
  /\ rowsVirtual (Some w) rowRange = None
  /\ visibleIndices (Some w) rowRange columnRange = None.
Proof.
  intros Hw.
  assert (columnLength (Some w) = 0) as Hc.
  { rewrite columnLength_div. simpl. by apply Z.div_small. }
  assert (rowCount (Some w) = Infinity) as Hr
    by (unfold rowCount; by rewrite Hc).
  assert (rowsVirtual (Some w) rowRange = None) as Hrows
    by (unfold rowsVirtual; by rewrite Hr).
  split; [done|]. split; [done|]. split; [done|].
  unfold visibleIndices. by rewrite Hrows.
Qed.

Lemma narrow_window_never_draws_witness :
  columnLength (Some 0) = 0
  /\ rowCount (Some 0) = Infinity
  /\ rowsVirtual (Some 0) (Some (0, 20)) = None
  /\ visibleIndices (Some 0) (Some (0, 20)) (Some (0, 5)) = None.
Proof.
  apply (narrow_window_never_draws 0 (Some (0, 20)) (Some (0, 5))).
  unfold checkboxSize, checkboxPadding. lia.
Defined.

(** X4. The range handed to the debounced setters is the rows of the
    virtualizer's range, whole: an index lies in [[start, end)] exactly when
    it is a cell of one of the rows [startIndex .. endIndex]. Without a range
    it is the first row. *)
Theorem queryRange_whole_rows (w : option Z) (s e i : Z) :
  0 < columnLength w ->
  ((queryRange w (Some (s, e))).1 <= i < (queryRange w (Some (s, e))).2 <->
   exists r c, s <= r <= e /\ 0 <= c < columnLength w /\ i = actualIndex w r c)
  /\ (queryRange w (Some (s, e))).2 - (queryRange w (Some (s, e))).1
     = (e - s + 1) * columnLength w
  /\ queryRange w None = (0, columnLength w).
Proof.
  intros Hc. unfold queryRange, actualIndex. simpl. split; [|split; [lia|done]].
  split.
  - intros Hi. exists (i / columnLength w), (i mod columnLength w).
    pose proof (Z.div_mod i (columnLength w)) as Hdm.
    pose proof (Z.mod_pos_bound i (columnLength w) Hc) as Hm.
    split; [nia|]. split; [done|]. lia.
  - intros (r & c & Hr & Hcb & ->). nia.
Qed.

Lemma queryRange_whole_rows_witness :
  (queryRange None (Some (2, 4))).2 - (queryRange None (Some (2, 4))).1
  = (4 - 2 + 1) * columnLength None
  /\ queryRange None None = (0, columnLength None).
Proof.
  apply (proj2 (queryRange_whole_rows None 2 4 0 eq_refl)).
Defined.

(** X5. The overscan rows are drawn and not asked for. The rows drawn reach
    at most ten rows beyond [startIndex .. endIndex] on either side; and when
    the [onChange] that handed the range to the setters ran with the column
    count of the render that draws, a drawn cell lies in that range exactly
    when its row is one of [startIndex .. endIndex]. ([w'] is the width in
    the closure of that [onChange], [w] the width of the render that
    draws.) *)
Theorem overscan_rows_not_queried
    (w w' : option Z) (s e : Z) (columnRange : option (Z * Z))
    (rows columns : list Z) (r c : Z) :
  rowsVirtual w (Some (s, e)) = Some rows ->
  columnsVirtual w columnRange = Some columns ->
  r ∈ rows -> c ∈ columns ->
  s - 10 <= r <= e + 10
  /\ (columnLength w' = columnLength w ->
      ((queryRange w' (Some (s, e))).1 <= actualIndex w r c
         < (queryRange w' (Some (s, e))).2 <-> s <= r <= e)).
Proof.
  intros Hrows Hcols Hr Hc.
  apply (columnsVirtual_bound _ _ _ _ Hcols) in Hc.
  unfold rowsVirtual, getVirtualIndexes in Hrows.
  destruct (rowCount w) as [q|]; [|done]. injection Hrows as <-.
  apply elem_of_defaultRangeExtractor in Hr as (_ & Hlo & Hhi & _).
  simpl in Hlo, Hhi. split; [lia|]. intros Hw.
  unfold queryRange, actualIndex. simpl. rewrite Hw. split; intros H; nia.
Qed.

Lemma overscan_rows_not_queried_witness :
  rowsVirtual None (Some (20, 30)) = Some (seqZ 10 31)
  /\ columnsVirtual None (Some (0, 36)) = Some (seqZ 0 37)
  /\ 12 ∈ seqZ 10 31 /\ 3 ∈ seqZ 0 37
  /\ ~ ((queryRange None (Some (20, 30))).1 <= actualIndex None 12 3
        < (queryRange None (Some (20, 30))).2).
Proof.
  assert (rowsVirtual None (Some (20, 30)) = Some (seqZ 10 31)) as Hrows
    by reflexivity.
  assert (columnsVirtual None (Some (0, 36)) = Some (seqZ 0 37)) as Hcols
    by reflexivity.
  assert (12 ∈ seqZ 10 31) as Hr by (apply elem_of_seqZ; lia).
  assert (3 ∈ seqZ 0 37) as Hc by (apply elem_of_seqZ; lia).
  split; [exact Hrows|]. split; [exact Hcols|].
  split; [exact Hr|]. split; [exact Hc|].
  intros H.
  apply (proj2 (overscan_rows_not_queried None None 20 30 _ _ _ 12 3
                  Hrows Hcols Hr Hc) eq_refl) in H.
  lia.
Defined.

(** A stale closure: the range handed over by the first render's [onChange]
    (no measured width yet, 37 columns) against cells drawn at width 1920
    (53 columns). Row 12 is one of the rows 0 .. 16 of the range, and its
    first cell, 636, is beyond the end 629 of the range handed over. *)
Example stale_closure_range :
  queryRange None (Some (0, 16)) = (0, 629)
  /\ (rowsVirtual (Some 1920) (Some (0, 16)) ≫= (.!! 12%nat)) = Some 12
  /\ actualIndex (Some 1920) 12 0 = 636.
Proof. by vm_compute. Qed.

End ViewportFacts.

(** ** The session: what is sent, what is kept *)

Module SessionFacts.
Import Str StrFacts Client SocketFacts StoreFacts Wire.

Local Open Scope string_scope.

Lemma lookup_mark (checked : bool) (k k' : string) (ls : gmap string bool) :
  k <> "__proto__" ->
  mark checked k ls !! k'
  = if decide (k = k') then (if checked then Some true else None)
    else ls !! k'.
Proof.
  intros Hk. unfold mark. rewrite markChecked_insert by done.
  unfold markUnchecked. case_decide as E.
  - subst. destruct checked; [apply lookup_insert_eq | apply lookup_delete_eq].
  - destruct checked; [by apply lookup_insert_ne | by apply lookup_delete_ne].
Qed.

Lemma listState_onChange_mark (checked : bool) (i : N) (st : State) :
  listState (onChange checked i st)
  = mark checked (toString i) (listState st).
Proof. apply listState_onChange. Qed.

Lemma toggleFrame_no_get (checked : bool) (i : N) :
  includes "get," (toggleFrame checked i) = false.
Proof.
  unfold toggleFrame.
  destruct checked; by apply (broadcast_frame _ i).
Qed.

Lemma onMessage_toggleFrame
    (NumberKey : string -> string) (checked : bool) (i : N) (st : State) :
  listState (onMessage NumberKey (toggleFrame checked i) st)
  = mark checked (toString i) (listState st).
Proof.
  destruct checked.
  - apply (onMessage_broadcast_c NumberKey i st).
  - apply (onMessage_broadcast_u NumberKey i st).
Qed.

(** X6. A local toggle is optimistic: whatever the state of the socket, the
    toggled index reads as the checkbox now shows, every other index reads
    as before, and a re-render is asked for; the command goes on the wire
    only when the socket takes frames, and then it is the one frame sent. *)
Theorem toggle_is_optimistic (checked : bool) (i : N) (st : State) :
  (forall j, isChecked (listState (onChange checked i st)) j
             = if N.eqb j i then checked else isChecked (listState st) j)
  /\ changesCount (onChange checked i st) = (changesCount st + 1)%N
  /\ sent (onChange checked i st)
     = if isOpen st then (sent st ++ [toggleFrame checked i])%list
       else sent st.
Proof.
  split; [|split].
  - intros j. rewrite listState_onChange.
    destruct checked;
      [apply isChecked_markChecked | apply isChecked_markUnchecked].
  - unfold onChange, send. by destruct checked, (_ || _).
  - unfold onChange, send, isOpen, toggleFrame.
    destruct checked, (connected st) eqn:Hc, (bool_decide (readyState st = OPEN)) eqn:Hr;
      simpl; rewrite ?Hc, ?Hr; done.
Qed.

(** X7. The command of a toggle survives the wire: no such frame contains
    ["get,"], so a receiver takes it as a mutation, and handling it does to
    the receiver's store what the toggle did to the sender's. Different
    toggles give different frames. *)
Theorem toggle_frame_round_trip
    (NumberKey : string -> string) (checked : bool) (i : N) (st : State) :
  includes "get," (toggleFrame checked i) = false
  /\ listState (onMessage NumberKey (toggleFrame checked i) st)
     = listState (onChange checked i st)
  /\ forall checked' j,
       toggleFrame checked i = toggleFrame checked' j ->
       checked = checked' /\ i = j.
Proof.
  split; [apply toggleFrame_no_get|]. split.
  - by rewrite onMessage_toggleFrame, listState_onChange_mark.
  - unfold toggleFrame. intros checked' j H.
    destruct checked, checked'; simpl in H; try discriminate H;
      injection H as H; by apply toString_inj in H.
Qed.

Lemma toggle_frame_round_trip_witness :
  toggleFrame true 42 = toggleFrame true 42 /\ (true = true /\ 42%N = 42%N).
Proof.
  split; [done|].
  exact (proj2 (proj2 (toggle_frame_round_trip decimalKey true 42 initial))
           true 42%N eq_refl).
Defined.

(** X8. Toggles on different cells commute, a local one with a local one and a
    local one with a broadcast; on the same cell the later one wins. *)
Theorem toggles_commute
    (NumberKey : string -> string) (b b' : bool) (i j : N) (st : State) :
  (i <> j ->
   listState (onChange b i (onChange b' j st))
   = listState (onChange b' j (onChange b i st))
   /\ listState (onMessage NumberKey (toggleFrame b i) (onChange b' j st))
      = listState (onChange b' j (onMessage NumberKey (toggleFrame b i) st)))
  /\ listState (onChange b i (onChange b' i st)) = listState (onChange b i st)
  /\ listState (onMessage NumberKey (toggleFrame b i) (onChange b' i st))
     = listState (onChange b i st).
Proof.
  assert (forall n m, toString n <> toString m ->
            forall ls : gmap string bool,
              mark b (toString n) (mark b' (toString m) ls)
              = mark b' (toString m) (mark b (toString n) ls)) as Hcomm.
  { intros n m Hne ls. apply map_eq. intros x.
    rewrite !lookup_mark by apply toString_not_proto.
    repeat case_decide; congruence. }
  assert (forall n (ls : gmap string bool),
            mark b (toString n) (mark b' (toString n) ls)
            = mark b (toString n) ls) as Hlast.
  { intros n ls. apply map_eq. intros x.
    rewrite !lookup_mark by apply toString_not_proto.
    by case_decide. }
  split; [|split].
  - intros Hne.
    assert (toString i <> toString j) as Hk
      by (intros H; by apply toString_inj in H).
    repeat (rewrite listState_onChange_mark || rewrite onMessage_toggleFrame).
    split; by apply Hcomm.
  - rewrite !listState_onChange_mark. apply Hlast.
  - rewrite onMessage_toggleFrame, !listState_onChange_mark. apply Hlast.
Qed.

Lemma toggles_commute_witness :
  1%N <> 2%N
  /\ listState (onChange true 1 (onChange false 2 initial))
     = listState (onChange false 2 (onChange true 1 initial)).
Proof.
  assert (1%N <> 2%N) as H by discriminate.
  split; [exact H|].
  exact (proj1 (proj1 (toggles_commute decimalKey true false 1 2 initial) H)).
Defined.

(** *** Responses *)

Lemma split_pieces_free_of (c sep : ascii) (s : string) :
  free_of c s -> Forall (free_of c) (split sep s).
Proof.
  induction s as [|a s IH]; simpl; [by repeat constructor|].
  intros [Ha Hs]. specialize (IH Hs).
  destruct (Ascii.eqb a sep); [by constructor|].
  destruct (split sep s) as [|piece rest]; [by repeat constructor|].
  inversion IH; subst. by constructor.
Qed.

Lemma split_concat (sep : ascii) (l : list string) :
  l <> [] -> Forall (free_of sep) l ->
  split sep (String.concat (String sep "") l) = l.
Proof.
  induction l as [|x l IH]; [done|]. intros _ Hl.
  inversion Hl as [|? ? Hx Hl']; subst.
  destruct l as [|y l]; [by apply split_free_of|].
  change (String.concat (String sep "") (x :: y :: l))
    with (x ++ String sep (String.concat (String sep "") (y :: l))).
  rewrite split_app by done. by rewrite IH.
Qed.

Lemma encodeTuple_free_of_comma (entry : N * bool) :
  free_of "," (encodeTuple entry).
Proof.
  unfold encodeTuple. apply free_of_app.
  split; [by apply toString_free_of|]. by destruct entry.2.
Qed.

Lemma tuplesOf_encodeResponse (entries : list (N * bool)) :
  tuplesOf (encodeResponse entries)
  = if decide (entries = []) then [""] else map encodeTuple entries.
Proof.
  unfold tuplesOf, encodeResponse.
  change ("get," ++ String.concat "," (map encodeTuple entries))
    with ("get" ++ String "," (String.concat "," (map encodeTuple entries))).
  rewrite split_app by by simpl. simpl.
  case_decide as E; [by subst|].
  apply split_concat; [by destruct entries|].
  apply Forall_fmap, Forall_forall. intros e _.
  apply encodeTuple_free_of_comma.
Qed.

Section Responses.

Variable NumberKey : string -> string.

Lemma mergeTuple_no_colon (ls : gmap string bool) (tuples : string) :
  free_of ":" tuples -> mergeTuple NumberKey ls tuples = ls.
Proof. intros H. unfold mergeTuple. by rewrite split_free_of. Qed.

Lemma mergeTuples_no_colon (ls : gmap string bool) (data : list string) :
  Forall (free_of ":") data -> foldl (mergeTuple NumberKey) ls data = ls.
Proof.
  induction 1 as [|t data Ht _ IH]; simpl; [done|].
  by rewrite mergeTuple_no_colon.
Qed.

Lemma mergeTuple_encodeTuple (ls : gmap string bool) (entry : N * bool) :
  mergeTuple NumberKey ls (encodeTuple entry)
  = mark entry.2 (NumberKey (toString entry.1)) ls.
Proof.
  unfold encodeTuple.
  change (toString entry.1 ++ ":" ++ (if entry.2 then "1" else "0"))
    with (toString entry.1 ++ String ":" (if entry.2 then "1" else "0")).
  rewrite mergeTuple_pair;
    [by destruct entry.2 | apply toString_nonempty | by destruct entry.2
    | by apply toString_free_of | by destruct entry.2].
Qed.

Lemma queryFrame_shape (rs re : N) :
  contains "get," (queryFrame rs re) /\ free_of ":" (queryFrame rs re).
Proof.
  split; [by exists "", (toString rs ++ "," ++ toString re)|].
  unfold queryFrame. repeat (apply free_of_app; split);
    try (by apply toString_free_of); by simpl.
Qed.

End Responses.

(** X9. A response without a colon changes no entry: a bare [get,], and a
    range query that comes back to a client, are taken as responses (they
    contain ["get,"]), logged, answered with a re-render, and leave the store
    as it is. *)
Theorem colonless_response_changes_nothing
    (NumberKey : string -> string) (st : State) :
  (forall data, contains "get," data -> free_of ":" data ->
     listState (onMessage NumberKey data st) = listState st
     /\ changesCount (onMessage NumberKey data st) = (changesCount st + 1)%N
     /\ console (onMessage NumberKey data st)
        = (console st ++ [tuplesOf data])%list)
  /\ (forall rs re,
        listState (onMessage NumberKey (queryFrame rs re) st) = listState st)
  /\ listState (onMessage NumberKey "get," st) = listState st.
Proof.
  assert (forall data, contains "get," data -> free_of ":" data ->
     listState (onMessage NumberKey data st) = listState st
     /\ changesCount (onMessage NumberKey data st) = (changesCount st + 1)%N
     /\ console (onMessage NumberKey data st)
        = (console st ++ [tuplesOf data])%list) as H.
  { intros data Hget Hcolon. apply includes_spec in Hget.
    unfold onMessage. rewrite Hget. split; [|done].
    rewrite listState_getBranch. apply mergeTuples_no_colon.
    by apply Forall_tail, split_pieces_free_of. }
  split; [exact H|]. split.
  - intros rs re. destruct (queryFrame_shape rs re) as [Hg Hc].
    by apply H.
  - apply H; [by exists "", ""|by simpl].
Qed.

Lemma colonless_response_changes_nothing_witness :
  contains "get," "get,0,1000" /\ free_of ":" "get,0,1000"
  /\ listState (onMessage decimalKey "get,0,1000" initial) = listState initial.
Proof.
  assert (contains "get," "get,0,1000") as H1 by by exists "", "0,1000".
  assert (free_of ":" "get,0,1000") as H2 by (simpl; repeat split; discriminate).
  split; [exact H1|]. split; [exact H2|].
  exact (proj1 (proj1 (colonless_response_changes_nothing decimalKey initial)
                  "get,0,1000" H1 H2)).
Defined.

(** X10. Decoding a response: the frame that lists the entries
    [<index>:<bit>] is merged as the sequence of store operations the
    entries stand for, in the order listed (a check for bit 1, an uncheck
    for bit 0), provided [Number] gives each listed numeral its own key. A
    frame that lists nothing changes nothing. *)
Theorem response_round_trip
    (NumberKey : string -> string) (entries : list (N * bool)) (st : State) :
  (forall entry, entry ∈ entries ->
     NumberKey (toString entry.1) = toString entry.1) ->
  listState (onMessage NumberKey (encodeResponse entries) st)
  = applyOps (listState st) (map entryOp entries).
Proof.
  intros Hkey. unfold onMessage.
  assert (includes "get," (encodeResponse entries) = true) as ->.
  { apply includes_spec.
    by exists "", (String.concat "," (map encodeTuple entries)). }
  rewrite listState_getBranch, tuplesOf_encodeResponse.
  case_decide as E; [by subst|]. clear E.
  generalize (listState st) as ls. unfold applyOps.
  induction entries as [|e entries IH]; intros ls; simpl; [done|].
  rewrite mergeTuple_encodeTuple, Hkey by by left.
  rewrite IH by (intros e' He'; apply Hkey; by right).
  f_equal. by destruct e as [i []].
Qed.

Lemma response_round_trip_witness :
  (forall entry, entry ∈ [(7%N, true); (500%N, true); (3%N, false)] ->
     decimalKey (toString entry.1) = toString entry.1)
  /\ listState (onMessage decimalKey
                  (encodeResponse [(7%N, true); (500%N, true); (3%N, false)])
                  initial)
     = applyOps (listState initial)
         (map entryOp [(7%N, true); (500%N, true); (3%N, false)]).
Proof.
  assert (forall entry, entry ∈ [(7%N, true); (500%N, true); (3%N, false)] ->
            decimalKey (toString entry.1) = toString entry.1) as H
    by (intros entry _; apply decimalKey_toString).
  split; [exact H|].
  exact (response_round_trip decimalKey _ initial H).
Defined.

Example encodeResponse_frame :
  encodeResponse [(7%N, true); (500%N, true); (3%N, false)]
  = "get,7:1,500:1,3:0".
Proof. reflexivity. Qed.

(** X11. A frame that is no response and whose first part is neither [c] nor
    [u] (an empty frame, an unknown or upper-case prefix) changes no entry;
    it still asks for a re-render. *)
Theorem unknown_prefix_ignored
    (NumberKey : string -> string) (data : string) (st : State) :
  includes "get," data = false ->
  split "," data !! 0%nat <> Some "c" ->
  split "," data !! 0%nat <> Some "u" ->
  listState (onMessage NumberKey data st) = listState st
  /\ changesCount (onMessage NumberKey data st) = (changesCount st + 1)%N.
Proof.
  intros Hget Hc Hu. unfold onMessage. rewrite Hget. split; [|done].
  rewrite listState_mutationBranch. cbv zeta. by rewrite !decide_False.
Qed.

Lemma unknown_prefix_ignored_witness :
  includes "get," "C,5" = false
  /\ listState (onMessage decimalKey "C,5" initial) = listState initial.
Proof.
  split; [reflexivity|].
  apply (unknown_prefix_ignored decimalKey "C,5" initial);
    [reflexivity | by vm_compute | by vm_compute].
Defined.

(** *** Runs *)

(** A handler or a render applied to a state: the fields it leaves alone
    are read off by unfolding it. *)
Ltac unfold_handlers :=
  unfold render, queryEffect, onChange, onMessage, getBranch, mutationBranch,
    send;
  repeat (case_decide || match goal with
                         | |- context [if ?b then _ else _] => destruct b
                         end);
  try done.

Lemma readyState_render (st : State) : readyState (render st) = readyState st.
Proof. unfold_handlers. Qed.

Lemma deps_render (st : State) :
  deps (render st) = Some (connected st, rangeStart st, rangeEnd st).
Proof. unfold_handlers. Qed.

Lemma render_current (st : State) :
  deps st = Some (connected st, rangeStart st, rangeEnd st) -> render st = st.
Proof. intros H. unfold render. by rewrite decide_True. Qed.

(** A render sends nothing, or the query for the range of that render. *)
Lemma render_sent_cases (st : State) :
  sent (render st) = sent st
  \/ (isOpen st = true
      /\ sent (render st)
         = (sent st ++ [queryFrame (rangeStart st) (rangeEnd st)])%list).
Proof.
  unfold render, queryEffect, send, isOpen. case_decide; [by left|]. simpl.
  destruct (connected st); simpl; [|by left].
  destruct (bool_decide (readyState st = OPEN)); simpl; [by right | by left].
Qed.

Lemma render_sent_not_open (st : State) :
  isOpen st = false -> sent (render st) = sent st.
Proof.
  intros H. destruct (render_sent_cases st) as [E|[E _]]; [done|congruence].
Qed.

Lemma sent_onChange (checked : bool) (i : N) (st : State) :
  sent (onChange checked i st)
  = if isOpen st then (sent st ++ [toggleFrame checked i])%list else sent st.
Proof.
  unfold onChange, send, isOpen, toggleFrame.
  destruct checked, (connected st) eqn:Hc,
    (bool_decide (readyState st = OPEN)) eqn:Hr;
    simpl; rewrite ?Hc, ?Hr; done.
Qed.

Section Runs.

Variable NumberKey : string -> string.

Lemma onChange_fields (checked : bool) (i : N) (st : State) :
  readyState (onChange checked i st) = readyState st
  /\ connected (onChange checked i st) = connected st
  /\ rangeStart (onChange checked i st) = rangeStart st
  /\ rangeEnd (onChange checked i st) = rangeEnd st
  /\ deps (onChange checked i st) = deps st.
Proof. unfold onChange, send. by destruct checked, (_ || _). Qed.

Lemma onMessage_fields (data : string) (st : State) :
  readyState (onMessage NumberKey data st) = readyState st
  /\ connected (onMessage NumberKey data st) = connected st
  /\ rangeStart (onMessage NumberKey data st) = rangeStart st
  /\ rangeEnd (onMessage NumberKey data st) = rangeEnd st
  /\ deps (onMessage NumberKey data st) = deps st
  /\ sent (onMessage NumberKey data st) = sent st.
Proof. unfold onMessage. by destruct (includes "get," data). Qed.

Lemma step_depsCurrent (st : State) (ev : Event) :
  depsCurrent st -> depsCurrent (step NumberKey st ev).
Proof.
  intros H.
  assert (forall st', depsCurrent (render st')) as Hr.
  { intros st'. right.
    rewrite deps_render, render_connected.
    by destruct (render_range st') as [-> ->]. }
  destruct ev as [| |b i|data|rs re]; simpl; try apply Hr.
  destruct (connected st); [apply Hr | done].
Qed.

Lemma run_depsCurrent (evs : list Event) (st : State) :
  depsCurrent st -> depsCurrent (run NumberKey st evs).
Proof.
  unfold run. revert st. induction evs as [|ev evs IH]; intros st H; [done|].
  simpl. by apply IH, step_depsCurrent.
Qed.

(** When nothing the query effect depends on has changed, or the client is
    not connected, a render sends nothing. *)
Lemma render_quiet (st st' : State) :
  depsCurrent st ->
  connected st' = connected st -> rangeStart st' = rangeStart st ->
  rangeEnd st' = rangeEnd st -> deps st' = deps st ->
  sent (render st') = sent st'.
Proof.
  intros [[Hd Hc]|Hd] Ec Es Ee Ed.
  - apply render_sent_not_open. unfold isOpen. by rewrite Ec, Hc.
  - rewrite render_current; [done|]. by rewrite Ed, Ec, Es, Ee.
Qed.

Lemma sends_per_event_current (st : State) :
  depsCurrent st ->
  (forall data, sent (step NumberKey st (Message data)) = sent st)
  /\ (forall checked i,
        sent (step NumberKey st (Change checked i))
        = if isOpen st then (sent st ++ [toggleFrame checked i])%list
          else sent st)
  /\ (forall rs re,
        sent (step NumberKey st (Settle rs re))
        = if isOpen st
             && negb (bool_decide ((rs, re) = (rangeStart st, rangeEnd st)))
          then (sent st ++ [queryFrame rs re])%list
          else sent st)
  /\ sent (step NumberKey st Close) = sent st.
Proof.
  intros H. split; [|split; [|split]].
  - intros data. simpl. destruct (connected st) eqn:Hc; [|done].
    destruct (onMessage_fields data st) as (_ & E1 & E2 & E3 & E4 & E5).
    by rewrite (render_quiet st).
  - intros b i. simpl.
    destruct (onChange_fields b i st) as (_ & E1 & E2 & E3 & E4).
    rewrite (render_quiet st) by done. apply sent_onChange.
  - intros rs re. simpl. unfold render. simpl. case_decide as Hdec.
    + assert ((rs, re) = (rangeStart st, rangeEnd st)) as E
        by (destruct H as [[Hd _]|Hd]; congruence).
      by rewrite (bool_decide_eq_true_2 _ E), andb_false_r.
    + unfold queryEffect, send, isOpen. simpl.
      destruct (connected st) eqn:Hc; simpl; [|done].
      destruct (bool_decide (readyState st = OPEN)); simpl; [|done].
      rewrite bool_decide_eq_false_2; [done|].
      intros [= -> ->]. destruct H as [[_ Hc']|Hd]; congruence.
  - simpl. rewrite render_sent_not_open; [done|].
    unfold isOpen. simpl. apply andb_false_r.
Qed.

Lemma step_not_open (st : State) (ev : Event) :
  ev <> Open -> readyState st <> OPEN ->
  sent (step NumberKey st ev) = sent st
  /\ readyState (step NumberKey st ev) <> OPEN.
Proof.
  intros Hev Hr.
  assert (forall st', readyState st' <> OPEN -> isOpen st' = false) as Hno.
  { intros st' H'. unfold isOpen. rewrite (bool_decide_eq_false_2 _ H').
    apply andb_false_r. }
  destruct ev as [| |b i|data|rs re]; simpl; [done|..].
  - rewrite readyState_render, render_sent_not_open by by apply Hno. done.
  - destruct (onChange_fields b i st) as (E & _).
    rewrite readyState_render, render_sent_not_open
      by (apply Hno; by rewrite E).
    rewrite E, sent_onChange, Hno by done. done.
  - destruct (connected st); [|done].
    destruct (onMessage_fields data st) as (E & _ & _ & _ & _ & Es).
    rewrite readyState_render, render_sent_not_open
      by (apply Hno; by rewrite E).
    by rewrite E, Es.
  - rewrite readyState_render, render_sent_not_open by by apply Hno. done.
Qed.

Lemma step_connected (st : State) (ev : Event) :
  connected st = true -> connected (step NumberKey st ev) = true.
Proof.
  intros Hc. destruct ev as [| |b i|data|rs re]; simpl;
    rewrite ?Hc, ?render_connected; try done.
  - by rewrite onChange_connected.
  - by rewrite onMessage_connected.
Qed.

(** One step adds nothing to the wire, or one command. *)
Lemma step_sent_extends (st : State) (ev : Event) :
  exists l, sent (step NumberKey st ev) = (sent st ++ l)%list
            /\ Forall isCommand l.
Proof.
  assert (forall st', exists l, sent (render st') = (sent st' ++ l)%list
                                /\ Forall isCommand l) as Hr.
  { intros st'. destruct (render_sent_cases st') as [E|[_ E]].
    - exists []. by rewrite app_nil_r.
    - eexists. split; [exact E|].
      constructor; [left; by eauto | constructor]. }
  destruct ev as [| |b i|data|rs re]; simpl.
  - apply (Hr (set_socket OPEN true st)).
  - apply (Hr (set_socket CLOSED (connected st) st)).
  - destruct (Hr (onChange b i st)) as (l & -> & Hl).
    rewrite sent_onChange. destruct (isOpen st).
    + exists ([toggleFrame b i] ++ l)%list. rewrite app_assoc.
      split; [done|]. constructor; [right; eauto | done].
    + by exists l.
  - destruct (connected st).
    + destruct (Hr (onMessage NumberKey data st)) as (l & -> & Hl).
      rewrite onMessage_sent. by exists l.
    + exists []. by rewrite app_nil_r.
  - apply (Hr (set_range rs re st)).
Qed.

End Runs.

(** X12. What each event puts on the wire, in every state the client can reach:
    an inbound frame nothing; a toggle its command when the socket takes
    frames, nothing otherwise; a render with a settled range one query for
    it when the socket takes frames and the range is new, nothing when the
    range is the one last asked for; a close nothing. *)
Theorem sends_per_event (NumberKey : string -> string) (evs : list Event) :
  let st := run NumberKey initial evs in
  (forall data, sent (step NumberKey st (Message data)) = sent st)
  /\ (forall checked i,
        sent (step NumberKey st (Change checked i))
        = if isOpen st then (sent st ++ [toggleFrame checked i])%list
          else sent st)
  /\ (forall rs re,
        sent (step NumberKey st (Settle rs re))
        = if isOpen st
             && negb (bool_decide ((rs, re) = (rangeStart st, rangeEnd st)))
          then (sent st ++ [queryFrame rs re])%list
          else sent st)
  /\ sent (step NumberKey st Close) = sent st.
Proof.
  intros st. apply sends_per_event_current, run_depsCurrent. by left.
Qed.

Example scroll_session :
  sent (run decimalKey initial
          [Open; Settle 370 1110; Settle 370 1110; Message "c,400";
           Change false 400; Settle 370 1480])
  = ["get,0,1000"; "get,370,1110"; "u,400"; "get,370,1480"].
Proof. by vm_compute. Qed.

(** X13. Once the socket is not open and does not open again, nothing more is
    sent, whatever is toggled or scrolled; the toggles still change the
    store: after a further toggle the toggled index reads as the checkbox
    shows, the other indices as before, and still nothing is sent. *)
Theorem closed_socket_sends_nothing
    (NumberKey : string -> string) (st : State) (evs : list Event) :
  readyState st <> OPEN -> stillConnecting evs ->
  sent (run NumberKey st evs) = sent st
  /\ readyState (run NumberKey st evs) <> OPEN
  /\ forall checked i j,
       isChecked (listState (step NumberKey (run NumberKey st evs)
                               (Change checked i))) j
       = (if N.eqb j i then checked
          else isChecked (listState (run NumberKey st evs)) j)
       /\ sent (step NumberKey (run NumberKey st evs) (Change checked i))
          = sent st.
Proof.
  intros Hr Hevs.
  assert (sent (run NumberKey st evs) = sent st
          /\ readyState (run NumberKey st evs) <> OPEN) as [Es Hr'].
  { unfold run. revert st Hr.
    induction Hevs as [|ev evs Hev _ IH]; intros st Hr; [done|].
    simpl. destruct (step_not_open NumberKey st ev Hev Hr) as [Es Hr'].
    destruct (IH _ Hr') as [E1 E2]. split; [congruence | done]. }
  split; [done|]. split; [done|]. intros checked i j. split.
  - simpl. rewrite render_listState, listState_onChange.
    destruct checked;
      [apply isChecked_markChecked | apply isChecked_markUnchecked].
  - destruct (step_not_open NumberKey (run NumberKey st evs)
                (Change checked i)) as [E _]; [done|done|].
    by rewrite E.
Qed.

Lemma closed_socket_sends_nothing_witness :
  let st := run decimalKey initial [Open; Close] in
  readyState st <> OPEN
  /\ stillConnecting [Change true 1; Settle 5 6]
  /\ sent (run decimalKey st [Change true 1; Settle 5 6]) = sent st
  /\ isChecked (listState (run decimalKey st [Change true 1; Settle 5 6])) 1
     = true.
Proof.
  intros st.
  assert (readyState st <> OPEN) as H1 by (vm_compute; discriminate).
  assert (stillConnecting [Change true 1; Settle 5 6]) as H2
    by (repeat constructor; discriminate).
  split; [exact H1|]. split; [exact H2|].
  split; [|by vm_compute].
  exact (proj1 (closed_socket_sends_nothing decimalKey st _ H1 H2)).
Defined.

(** X14. [connected] is never taken back: there is no listener for [close] or
    [error], so after the socket has opened the client counts as connected
    along every run, a close included. *)
Theorem connected_never_reset
    (NumberKey : string -> string) (st : State) (evs : list Event) :
  connected st = true -> connected (run NumberKey st evs) = true.
Proof.
  unfold run. revert st. induction evs as [|ev evs IH]; intros st Hc; [done|].
  simpl. by apply IH, step_connected.
Qed.

Lemma connected_never_reset_witness :
  connected (run decimalKey initial [Open]) = true
  /\ connected (run decimalKey (run decimalKey initial [Open])
                  [Close; Change true 1]) = true.
Proof.
  assert (connected (run decimalKey initial [Open]) = true) as H by reflexivity.
  split; [exact H|].
  exact (connected_never_reset decimalKey _ [Close; Change true 1] H).
Defined.

(** X15. Whatever happens to a fresh client, the frames it has sent are none,
    or a range query followed by range queries and toggle commands only:
    the first frame on the wire is always a query. *)
Theorem sent_starts_with_query
    (NumberKey : string -> string) (evs : list Event) :
  sent (run NumberKey initial evs) = []
  \/ exists rs re rest,
       sent (run NumberKey initial evs) = queryFrame rs re :: rest
       /\ Forall isCommand rest.
Proof.
  assert (forall st,
            (connected st = false /\ sent st = []
             /\ forall rs re, deps st <> Some (true, rs, re))
            \/ (exists rs re rest, sent st = queryFrame rs re :: rest
                                   /\ Forall isCommand rest) ->
            (connected (run NumberKey st evs) = false
             /\ sent (run NumberKey st evs) = []
             /\ forall rs re, deps (run NumberKey st evs) <> Some (true, rs, re))
            \/ (exists rs re rest,
                  sent (run NumberKey st evs) = queryFrame rs re :: rest
                  /\ Forall isCommand rest)) as H.
  { unfold run. induction evs as [|ev evs IH]; intros st Hst; [done|].
    simpl. apply IH. destruct Hst as [(Hc & Hs & Hd)|(rs & re & rest & Hs & Hr)].
    - assert (ev = Open \/ ev <> Open) as [->|Hev]
        by (destruct ev; (by left) || (by right)).
      + right. exists (rangeStart st), (rangeEnd st), [].
        by rewrite (open_sends_query NumberKey st Hd), Hs.
      + left. by apply step_connecting.
    - right. destruct (step_sent_extends NumberKey st ev) as (l & -> & Hl).
      exists rs, re, (rest ++ l)%list. rewrite Hs. split; [done|].
      by apply Forall_app. }
  destruct (H initial) as [(_ & Hs & _)|Hq]; [by left | by left | by right].
Qed.

(** X16. The query frame read back: split on commas it is [get], the numeral
    of the start and the numeral of the end, nothing else; so the range can
    be recovered from the frame, and two ranges never share one. *)
Theorem queryFrame_parts (rs re : N) :
  split "," (queryFrame rs re) = ["get"; toString rs; toString re]
  /\ forall rs' re',
       queryFrame rs re = queryFrame rs' re' -> rs = rs' /\ re = re'.
Proof.
  assert (forall a b, split "," (queryFrame a b)
                      = ["get"; toString a; toString b]) as H.
  { intros a b. unfold queryFrame.
    change ("get," ++ toString a ++ "," ++ toString b)
      with ("get" ++ String "," (toString a ++ String "," (toString b))).
    rewrite split_app by by simpl.
    rewrite split_app by by apply toString_free_of.
    by rewrite split_free_of by by apply toString_free_of. }
  split; [apply H|]. intros rs' re' E.
  apply (f_equal (split ",")) in E. rewrite !H in E.
  injection E as E1 E2. by apply toString_inj in E1, E2.
Qed.

Lemma queryFrame_parts_witness :
  queryFrame 370 1110 = queryFrame 370 1110
  /\ (370%N = 370%N /\ 1110%N = 1110%N).
Proof.
  split; [done|].
  exact (proj2 (queryFrame_parts 370 1110) 370%N 1110%N eq_refl).
Defined.

End SessionFacts.

(** ** The debounced range *)

Module DebounceFacts.
Import Str Client SocketFacts StoreFacts Wire SessionFacts Debounce.

Local Open Scope string_scope.


Section Timers.

Variable NumberKey : string -> string.






End Timers.




(** A burst that moves the start only sends one query, the last
    candidate. *)
Example start_only_burst :
  let c := run decimalKey initial [Open] in
  let sc := scroll decimalKey (mkScroller c None None)
              [(0%N, (37%N, 1000%N)); (400%N, (74%N, 1000%N))] in
  sent (client (advance decimalKey 1400 sc)) = ["get,0,1000"; "get,74,1000"].
Proof. by vm_compute. Qed.

End DebounceFacts.
